(** * bqredis-crud: the cache-aside user repository

    A shallow embedding of the Go packages [internal/repository],
    [internal/usecase] and [internal/delivery/http].  The warehouse table and the Redis keyspace are
    explicit state; every call to one of the two client libraries consumes
    one entry of an outcome script, so that a statement quantified over all
    worlds covers every failure behaviour of the two backends.  Goroutines
    started with [go func() { ... }()] are kept as pending tasks that the
    scheduler may run later. *)

From Stdlib Require Import ZArith List String Lia Bool.
From stdpp Require Import base option list gmap strings pretty.

Local Open Scope string_scope.
Local Open Scope Z_scope.

(** ** Go values *)

(** Go's [int] on the 64-bit targets the service is built for: arithmetic
    wraps around in two's complement. *)
Definition wrap64 (z : Z) : Z := (z + 2 ^ 63) mod 2 ^ 64 - 2 ^ 63.

(** Go [error] values.  [Wrap msg e] is [fmt.Errorf(msg + ": %w", e)],
    [Msg s] is an error without a wrapped cause, [External s] is an error
    value produced inside a client library. *)
Inductive error : Type :=
| ErrNotFound
| ErrUserNotFound
| ErrValidation
| redis_Nil
| DeadlineExceeded
| External (msg : string)
| Msg (msg : string)
| Wrap (msg : string) (cause : error).

Global Instance error_eq_dec : EqDecision error.
Proof. solve_decision. Defined.

(** [errors.Is]: the chain of wrapped causes is searched for [target]. *)
Fixpoint errors_Is (e target : error) : bool :=
  if bool_decide (e = target) then true
  else match e with
       | Wrap _ cause => errors_Is cause target
       | _ => false
       end.


(** [s == ""] *)
Definition is_empty (s : string) : bool :=
  match s with
  | EmptyString => true
  | String _ _ => false
  end.

(** [err == redis.Nil] *)
Definition is_redis_Nil (err : option error) : bool :=
  match err with
  | Some redis_Nil => true
  | _ => false
  end.

Module entity.

(** [entity.User] of [internal/domain/entity].  A [time.Time] is an instant,
    counted from Go's zero time. *)
Record User : Type := mkUser {
  ID : string;
  Name : string;
  Email : string;
  CreatedAt : Z;
  UpdatedAt : Z
}.

(** [entity.User{}] *)
Definition zero : User := mkUser "" "" "" 0 0.

Global Instance User_eq_dec : EqDecision User.
Proof. solve_decision. Defined.

End entity.

(** [PaginationParams] *)
Record PaginationParams : Type := mkParams {
  Page : Z;
  PageSize : Z
}.

Global Instance PaginationParams_eq_dec : EqDecision PaginationParams.
Proof. solve_decision. Defined.

(** ** The two backends *)

(** The text stored under a Redis key, abstracted by what [encoding/json]
    reads from it: [null], an object decoding to a user, an array decoding
    to a list of users, or anything else. *)
Inductive json : Type :=
| JNull
| JUser (u : entity.User)
| JUsers (l : list entity.User)
| JOther (text : string).

Global Instance json_eq_dec : EqDecision json.
Proof. solve_decision. Defined.

(** The statements the BigQuery adapter sends.  The dataset and table
    parameters are the same in all of them and are left out. *)
Inductive Query : Type :=
| SelectPage (pageSize offset : Z)
| SelectByID (id : string)
| UpdateByID (name email : string) (updatedAt : Z) (id : string)
| DeleteByID (id : string)
| InsertRow (u : entity.User).

Inductive RedisCmd : Type :=
| GET (key : string)
| SET (key : string) (value : json) (ttl : Z)
| DEL (key : string).

(** Which repository a normalisation ran in. *)
Inductive Layer : Type := CacheLayer | StoreLayer.

Global Instance Layer_eq_dec : EqDecision Layer.
Proof. solve_decision. Defined.

(** What an execution leaves in the trace: the statements sent to the
    warehouse, the commands sent to Redis, the lines written with
    [log.Printf], and a mark for every run of [ValidatePagination]. *)
Inductive Event : Type :=
| EvStore (q : Query)
| EvRedis (c : RedisCmd)
| EvLog (msg : string) (e : error)
| EvValidatePagination (who : Layer) (given : PaginationParams).

(** How one call to the BigQuery client ends: it succeeds, it fails when the
    statement is started ([query.Read], [query.Run], [inserter.Put]) or it
    fails later ([it.Next], [job.Wait]).  A failed statement changes
    nothing. *)
Inductive bq_outcome : Type :=
| BQ_ok
| BQ_fail_start (msg : string)
| BQ_fail_finish (msg : string).

(** How one round trip to Redis ends: an answer, an error of the client, or
    no answer within [defaultTimeout].  Only an answered round trip changes
    the keyspace. *)
Inductive redis_outcome : Type :=
| R_ok
| R_err (msg : string)
| R_timeout.

(** A goroutine started by the read path: [cacheSet] of a value under a key,
    with [context.Background()]. *)
Inductive task : Type :=
| CacheUser (key : string) (u : entity.User)
| CacheUsers (key : string) (l : list entity.User).

(** The state of the service and of its two backends: the rows of the
    warehouse table and the outcomes of the coming BigQuery calls, the Redis
    keyspace and the outcomes of the coming round trips, the goroutines not
    yet run, the clock, the identifiers [uuid.New] will hand out, and the
    trace so far.  Expiry is left out: an entry stays under its key until a
    command removes or replaces it. *)
Record World : Type := mkWorld {
  bq_table : list entity.User;
  bq_script : list bq_outcome;
  redis_db : gmap string json;
  redis_script : list redis_outcome;
  goroutines : list task;
  clock : Z;
  uuids : list string;
  trace : list Event
}.

(** ** The monad of Go code: state passing over the world; errors are
    ordinary return values, as in Go. *)
Definition M (A : Type) : Type := World → A * World.

Global Instance M_ret : MRet M := λ A (a : A) (w : World), (a, w).
Global Instance M_bind : MBind M :=
  λ A B (f : A → M B) (m : M A) (w : World), let '(a, w') := m w in f a w'.

Definition emit (e : Event) : M unit := λ w,
  (tt, mkWorld (bq_table w) (bq_script w) (redis_db w) (redis_script w)
               (goroutines w) (clock w) (uuids w) (trace w ++ [e])).

Definition bq_next : M bq_outcome := λ w,
  (match bq_script w with [] => BQ_ok | o :: _ => o end,
   mkWorld (bq_table w) (tail (bq_script w)) (redis_db w) (redis_script w)
           (goroutines w) (clock w) (uuids w) (trace w)).

Definition bq_rows : M (list entity.User) := λ w, (bq_table w, w).

Definition bq_write (t : list entity.User) : M unit := λ w,
  (tt, mkWorld t (bq_script w) (redis_db w) (redis_script w)
               (goroutines w) (clock w) (uuids w) (trace w)).

Definition redis_peek : M redis_outcome := λ w,
  (match redis_script w with [] => R_ok | o :: _ => o end, w).

Definition redis_next : M redis_outcome := λ w,
  (match redis_script w with [] => R_ok | o :: _ => o end,
   mkWorld (bq_table w) (bq_script w) (redis_db w) (tail (redis_script w))
           (goroutines w) (clock w) (uuids w) (trace w)).

Definition redis_keys : M (gmap string json) := λ w, (redis_db w, w).

Definition redis_write (db : gmap string json) : M unit := λ w,
  (tt, mkWorld (bq_table w) (bq_script w) db (redis_script w)
               (goroutines w) (clock w) (uuids w) (trace w)).

(** [go func() { ... }()] *)
Definition go (t : task) : M unit := λ w,
  (tt, mkWorld (bq_table w) (bq_script w) (redis_db w) (redis_script w)
               (goroutines w ++ [t]) (clock w) (uuids w) (trace w)).

(** [time.Now()] *)
Definition time_Now : M Z := λ w, (clock w, w).

(** [uuid.New().String()]: the next identifier of the supply. *)
Definition uuid_New : M string := λ w,
  (match uuids w with
   | [] => "00000000-0000-4000-8000-000000000000"
   | u :: _ => u
   end,
   mkWorld (bq_table w) (bq_script w) (redis_db w) (redis_script w)
           (goroutines w) (clock w) (tail (uuids w)) (trace w)).

Module repository.

(** [UserRepository], that is [BaseRepository[entity.User]]: the contract
    both the store adapter and the cache layer implement. *)
Module UserRepository.
Record t : Type := mk {
  GetAll : PaginationParams → M (list entity.User * option error);
  GetByID : string → M (entity.User * option error);
  Create : entity.User → M (option error);
  Update : entity.User → M (option error);
  Delete : string → M (option error)
}.
End UserRepository.

(** *** base_repository.go *)
Module BaseRepositoryImpl.

(** The effect of [ValidatePagination] on the parameters. *)
Definition normalize (params : PaginationParams) : PaginationParams :=
  let params := if Page params <? 1 then mkParams 1 (PageSize params) else params in
  if PageSize params <? 1 then mkParams (Page params) 10 else params.

(** [ValidatePagination]; the receiver [b] is the base embedded in one of
    the two repositories.  The parameters are passed by pointer in Go and
    returned here. *)
Definition ValidatePagination (b : Layer) (params : PaginationParams) : M PaginationParams :=
  _ ← emit (EvValidatePagination b params);
  mret (normalize params).

Definition CalculateOffset (params : PaginationParams) : Z :=
  wrap64 (wrap64 (Page params - 1) * PageSize params).

Definition ValidateID (id : string) : option error :=
  if is_empty id then Some ErrNotFound else None.

End BaseRepositoryImpl.

(** *** bq_repository.go *)
Module BigQueryRepository.
Import BaseRepositoryImpl.

(** [ORDER BY created_at DESC], as a stable insertion sort. *)
Fixpoint insert_desc (u : entity.User) (l : list entity.User) : list entity.User :=
  match l with
  | [] => [u]
  | v :: l' =>
      if entity.CreatedAt v <? entity.CreatedAt u then u :: l
      else v :: insert_desc u l'
  end.

Definition order_by_created_at_desc (l : list entity.User) : list entity.User :=
  foldr insert_desc [] l.

(** The rows a [SELECT] returns on a table.  [LIMIT] and [OFFSET] count
    rows; a negative value is read as zero. *)
Definition select (query : Query) (rows : list entity.User) : list entity.User :=
  match query with
  | SelectPage pageSize offset =>
      firstn (Z.to_nat pageSize)
             (skipn (Z.to_nat offset) (order_by_created_at_desc rows))
  | SelectByID id => filter (λ u, entity.ID u = id) rows
  | _ => []
  end.

(** The table an [UPDATE], [DELETE] or insert leaves. *)
Definition modify (query : Query) (rows : list entity.User) : list entity.User :=
  match query with
  | UpdateByID name email updatedAt id =>
      map (λ u, if bool_decide (entity.ID u = id)
                then entity.mkUser (entity.ID u) name email (entity.CreatedAt u) updatedAt
                else u) rows
  | DeleteByID id => filter (λ u, entity.ID u ≠ id) rows
  | InsertRow u => rows ++ [u]
  | _ => rows
  end.

Definition executeQuery (query : Query) : M (list entity.User * option error) :=
  _ ← emit (EvStore query);
  o ← bq_next;
  match o with
  | BQ_fail_start m => mret ([], Some (Wrap "failed to execute query" (External m)))
  | BQ_fail_finish m => mret ([], Some (Wrap "failed to scan user" (External m)))
  | BQ_ok => rows ← bq_rows; mret (select query rows, None)
  end.

Definition executeUpdateQuery (query : Query) : M (option error) :=
  _ ← emit (EvStore query);
  o ← bq_next;
  match o with
  | BQ_fail_start m => mret (Some (Wrap "failed to execute query" (External m)))
  | BQ_fail_finish m => mret (Some (Wrap "failed to complete job" (External m)))
  | BQ_ok => rows ← bq_rows; _ ← bq_write (modify query rows); mret None
  end.

Definition GetAll (params : PaginationParams) : M (list entity.User * option error) :=
  params ← ValidatePagination StoreLayer params;
  let offset := CalculateOffset params in
  executeQuery (SelectPage (PageSize params) offset).

Definition GetByID (id : string) : M (entity.User * option error) :=
  match ValidateID id with
  | Some err => mret (entity.zero, Some err)
  | None =>
      '(users, err) ← executeQuery (SelectByID id);
      match err with
      | Some err => mret (entity.zero, Some err)
      | None =>
          match users with
          | [] => mret (entity.zero, Some (Wrap ("user " +:+ id) ErrNotFound))
          | u :: _ => mret (u, None)
          end
      end
  end.

Definition Create (user : entity.User) : M (option error) :=
  _ ← emit (EvStore (InsertRow user));
  o ← bq_next;
  match o with
  | BQ_fail_start m | BQ_fail_finish m =>
      mret (Some (Wrap "failed to insert user" (External m)))
  | BQ_ok => rows ← bq_rows; _ ← bq_write (modify (InsertRow user) rows); mret None
  end.

Definition Update (user : entity.User) : M (option error) :=
  match ValidateID (entity.ID user) with
  | Some err => mret (Some err)
  | None =>
      '(_, err) ← GetByID (entity.ID user);
      match err with
      | Some err => mret (Some err)
      | None =>
          executeUpdateQuery
            (UpdateByID (entity.Name user) (entity.Email user)
                        (entity.UpdatedAt user) (entity.ID user))
      end
  end.

Definition Delete (id : string) : M (option error) :=
  match ValidateID id with
  | Some err => mret (Some err)
  | None =>
      '(_, err) ← GetByID id;
      match err with
      | Some err => mret (Some err)
      | None => executeUpdateQuery (DeleteByID id)
      end
  end.

(** [NewBigQueryRepository], seen through the [UserRepository] interface. *)
Definition NewBigQueryRepository : UserRepository.t :=
  UserRepository.mk GetAll GetByID Create Update Delete.

End BigQueryRepository.

(** *** The cache layer (the Redis repository) *)
Module RedisRepository.
Import BaseRepositoryImpl.

Definition userKeyPrefix : string := "users:".
Definition userListKeyPrefix : string := "users:list:".

(** [fmt.Sprintf(pageKeyFormat, page, size)] with
    [pageKeyFormat = "page_%d:size_%d"]. *)
Definition pageKeyFormat (page size : Z) : string :=
  "page_" +:+ pretty page +:+ ":size_" +:+ pretty size.

Record t : Type := mk {
  repository : UserRepository.t;
  ttl : Z
}.

Definition NewRedisRepository (repository : UserRepository.t) (ttl : Z) : t :=
  mk repository ttl.

(** [encoding/json] on the two kinds of value the layer caches.  A nil slice
    is written as [null]; [null] read into a variable leaves it as it is. *)
Class Codec (A : Type) : Type := {
  json_Marshal : A → json * option error;
  json_Unmarshal : json → A → A * option error
}.

Global Instance Codec_User : Codec entity.User := {|
  json_Marshal u := (JUser u, None);
  json_Unmarshal data result :=
    match data with
    | JNull => (result, None)
    | JUser u => (u, None)
    | JUsers _ => (result, Some (External "json: cannot unmarshal array"))
    | JOther _ => (result, Some (External "json: invalid text"))
    end
|}.

Global Instance Codec_Users : Codec (list entity.User) := {|
  json_Marshal l := (match l with [] => JNull | _ => JUsers l end, None);
  json_Unmarshal data result :=
    match data with
    | JNull => ([], None)
    | JUsers l => (l, None)
    | JUser _ => (result, Some (External "json: cannot unmarshal object"))
    | JOther _ => (result, Some (External "json: invalid text"))
    end
|}.

(** The go-redis client.  A command is recorded when it is sent; it reads or
    changes the keyspace only when the round trip is answered. *)
Definition client_Get (key : string) : M (json * option error) :=
  _ ← emit (EvRedis (GET key));
  o ← redis_next;
  match o with
  | R_ok =>
      db ← redis_keys;
      match db !! key with
      | Some data => mret (data, None)
      | None => mret (JOther "", Some redis_Nil)
      end
  | R_err m => mret (JOther "", Some (External m))
  | R_timeout => mret (JOther "", Some DeadlineExceeded)
  end.

Definition client_Set (key : string) (data : json) (ttl : Z) : M (option error) :=
  _ ← emit (EvRedis (SET key data ttl));
  o ← redis_next;
  match o with
  | R_ok => db ← redis_keys; _ ← redis_write (<[key := data]> db); mret None
  | R_err m => mret (Some (External m))
  | R_timeout => mret (Some DeadlineExceeded)
  end.

(** [pipe.Del]: the command is queued. *)
Definition pipe_Del (pipe : list RedisCmd) (key : string) : list RedisCmd :=
  pipe ++ [DEL key].

(** What a command does to the keyspace.  [DEL] reads its argument as the
    name of a key, not as a pattern: it removes the key of exactly that
    name. *)
Definition apply_cmd (db : gmap string json) (c : RedisCmd) : gmap string json :=
  match c with
  | GET _ => db
  | SET key data _ => <[key := data]> db
  | DEL key => delete key db
  end.

(** [pipe.Exec]: the queued commands go out in one round trip. *)
Definition pipe_Exec (pipe : list RedisCmd) : M (option error) :=
  _ ← foldr (λ c k, _ ← emit (EvRedis c); k) (mret tt) pipe;
  o ← redis_next;
  match o with
  | R_ok => db ← redis_keys; _ ← redis_write (foldl apply_cmd db pipe); mret None
  | R_err m => mret (Some (External m))
  | R_timeout => mret (Some DeadlineExceeded)
  end.

(** [executeWithTimeout]: the operation runs in a goroutine of its own; the
    [select] returns its error when the backend answers and the time-out
    error when it does not.  [captured] is the variable the closure assigns. *)
Definition executeWithTimeout {A : Type} (captured : A)
    (operation : M (A * option error)) : M (A * option error) :=
  o ← redis_peek;
  '(assigned, err) ← operation;
  match o with
  | R_timeout =>
      mret (captured, Some (Wrap "redis operation timed out" DeadlineExceeded))
  | _ => mret (assigned, err)
  end.

Definition cacheGet `{Codec A} (r : t) (key : string) (result : A) : M (A * option error) :=
  '(data, err) ← executeWithTimeout (JOther "")
      ('(data, err) ← client_Get key;
       if is_redis_Nil err
       then mret (data, Some (Msg ("cache miss for key " +:+ key)))
       else mret (data, err));
  match err with
  | Some err => mret (result, Some err)
  | None => mret (json_Unmarshal data result)
  end.

Definition cacheSet `{Codec A} (r : t) (key : string) (value : A) : M (option error) :=
  '(_, err) ← executeWithTimeout tt
      (let '(data, err) := json_Marshal value in
       match err with
       | Some err => mret (tt, Some (Wrap "failed to marshal data" err))
       | None => err ← client_Set key data (ttl r); mret (tt, err)
       end);
  mret err.

Definition generateKey (id : string) : string := userKeyPrefix +:+ id.

Definition generateListKey (params : PaginationParams) : string :=
  userListKeyPrefix +:+ pageKeyFormat (Page params) (PageSize params).

Definition invalidateCache (r : t) (id : string) : M (option error) :=
  '(_, err) ← executeWithTimeout tt
      (let pipe := [] in
       let pipe := pipe_Del pipe (generateKey id) in
       let pipe := pipe_Del pipe (userListKeyPrefix +:+ "*") in
       err ← pipe_Exec pipe;
       mret (tt, err));
  mret err.

Definition GetAll (r : t) (params : PaginationParams) : M (list entity.User * option error) :=
  params ← ValidatePagination CacheLayer params;
  let cacheKey := generateListKey params in
  '(users, err) ← cacheGet r cacheKey [];
  match err with
  | None => mret (users, None)
  | Some _ =>
      '(users, err) ← UserRepository.GetAll (repository r) params;
      match err with
      | Some err => mret ([], Some (Wrap "failed to get users from repository" err))
      | None =>
          _ ← go (CacheUsers cacheKey users);
          mret (users, None)
      end
  end.

Definition GetByID (r : t) (id : string) : M (entity.User * option error) :=
  match ValidateID id with
  | Some err => mret (entity.zero, Some err)
  | None =>
      let cacheKey := generateKey id in
      '(user, err) ← cacheGet r cacheKey entity.zero;
      match err with
      | None => mret (user, None)
      | Some _ =>
          '(user, err) ← UserRepository.GetByID (repository r) id;
          match err with
          | Some err => mret (entity.zero, Some (Wrap "failed to get user from repository" err))
          | None =>
              _ ← go (CacheUser cacheKey user);
              mret (user, None)
          end
      end
  end.

Definition Create (r : t) (user : entity.User) : M (option error) :=
  err ← UserRepository.Create (repository r) user;
  match err with
  | Some err => mret (Some (Wrap "failed to create user in repository" err))
  | None =>
      err ← invalidateCache r (entity.ID user);
      _ ← match err with
          | Some err => emit (EvLog "Failed to invalidate cache after create" err)
          | None => mret tt
          end;
      mret None
  end.

Definition Update (r : t) (user : entity.User) : M (option error) :=
  match ValidateID (entity.ID user) with
  | Some err => mret (Some err)
  | None =>
      err ← UserRepository.Update (repository r) user;
      match err with
      | Some err => mret (Some (Wrap "failed to update user in repository" err))
      | None =>
          err ← invalidateCache r (entity.ID user);
          _ ← match err with
              | Some err => emit (EvLog "Failed to invalidate cache after update" err)
              | None => mret tt
              end;
          mret None
      end
  end.

Definition Delete (r : t) (id : string) : M (option error) :=
  match ValidateID id with
  | Some err => mret (Some err)
  | None =>
      err ← UserRepository.Delete (repository r) id;
      match err with
      | Some err => mret (Some (Wrap "failed to delete user from repository" err))
      | None =>
          err ← invalidateCache r id;
          _ ← match err with
              | Some err => emit (EvLog "Failed to invalidate cache after delete" err)
              | None => mret tt
              end;
          mret None
      end
  end.

(** The body of a goroutine the read path started. *)
Definition run_task (r : t) (tk : task) : M unit :=
  match tk with
  | CacheUser cacheKey user =>
      err ← cacheSet r cacheKey user;
      match err with
      | Some err => emit (EvLog "Failed to cache user" err)
      | None => mret tt
      end
  | CacheUsers cacheKey users =>
      err ← cacheSet r cacheKey users;
      match err with
      | Some err => emit (EvLog "Failed to cache users list" err)
      | None => mret tt
      end
  end.

(** The scheduler runs the pending goroutine number [i] to its end. *)
Definition schedule (r : t) (i : nat) : M unit := λ w,
  match goroutines w !! i with
  | None => (tt, w)
  | Some tk =>
      run_task r tk
        (mkWorld (bq_table w) (bq_script w) (redis_db w) (redis_script w)
                 (take i (goroutines w) ++ drop (S i) (goroutines w))
                 (clock w) (uuids w) (trace w))
  end.

(** The repository seen through the [UserRepository] interface. *)
Definition as_UserRepository (r : t) : UserRepository.t :=
  UserRepository.mk (GetAll r) (GetByID r) (Create r) (Update r) (Delete r).

End RedisRepository.

End repository.

(** ** internal/usecase/user_usecase.go *)
Module usecase.
Import repository.

Record UserUseCase : Type := mkUseCase {
  primaryRepo : UserRepository.t;
  cacheRepo : UserRepository.t
}.

Definition NewUserUseCase (primaryRepo cacheRepo : UserRepository.t) : UserUseCase :=
  mkUseCase primaryRepo cacheRepo.

(** The helper [max] of the use case. *)
Definition max (a b : Z) : Z := if a >? b then a else b.

Definition validateUser (user : entity.User) (isCreate : bool) : option error :=
  if negb isCreate && is_empty (entity.ID user)
  then Some (Wrap "id is required" ErrValidation)
  else if is_empty (entity.Name user)
  then Some (Wrap "name is required" ErrValidation)
  else if is_empty (entity.Email user)
  then Some (Wrap "email is required" ErrValidation)
  else None.

Definition GetAllUsers (uc : UserUseCase) (page pageSize : Z)
    : M (list entity.User * option error) :=
  let params := mkParams (max page 1) (max pageSize 10) in
  '(users, err) ← UserRepository.GetAll (cacheRepo uc) params;
  match err with
  | Some err => mret ([], Some (Wrap "failed to get users" err))
  | None => mret (users, None)
  end.

Definition GetUserByID (uc : UserUseCase) (id : string) : M (entity.User * option error) :=
  if is_empty id
  then mret (entity.zero, Some (Wrap "id is required" ErrValidation))
  else
    '(user, err) ← UserRepository.GetByID (cacheRepo uc) id;
    match err with
    | Some err =>
        if errors_Is err ErrNotFound
        then mret (entity.zero, Some ErrUserNotFound)
        else mret (entity.zero, Some (Wrap "failed to get user" err))
    | None => mret (user, None)
    end.

Definition CreateUser (uc : UserUseCase) (user : entity.User)
    : M (entity.User * option error) :=
  match validateUser user true with
  | Some err => mret (entity.zero, Some err)
  | None =>
      id ← (if is_empty (entity.ID user) then uuid_New else mret (entity.ID user));
      now ← time_Now;
      let user := entity.mkUser id (entity.Name user) (entity.Email user) now now in
      err ← UserRepository.Create (cacheRepo uc) user;
      match err with
      | Some err => mret (entity.zero, Some (Wrap "failed to create user" err))
      | None => mret (user, None)
      end
  end.

Definition UpdateUser (uc : UserUseCase) (user : entity.User)
    : M (entity.User * option error) :=
  match validateUser user false with
  | Some err => mret (entity.zero, Some err)
  | None =>
      now ← time_Now;
      let user := entity.mkUser (entity.ID user) (entity.Name user) (entity.Email user)
                                (entity.CreatedAt user) now in
      err ← UserRepository.Update (cacheRepo uc) user;
      match err with
      | Some err =>
          if errors_Is err ErrNotFound
          then mret (entity.zero, Some ErrUserNotFound)
          else mret (entity.zero, Some (Wrap "failed to update user" err))
      | None => mret (user, None)
      end
  end.

Definition DeleteUser (uc : UserUseCase) (id : string) : M (option error) :=
  if is_empty id
  then mret (Some (Wrap "id is required" ErrValidation))
  else
    err ← UserRepository.Delete (cacheRepo uc) id;
    match err with
    | Some err =>
        if errors_Is err ErrNotFound
        then mret (Some ErrUserNotFound)
        else mret (Some (Wrap "failed to delete user" err))
    | None => mret None
    end.

End usecase.

(** ** cmd/api/main.go: the wiring *)
Module main.
Import repository.

Definition primaryRepo : UserRepository.t := BigQueryRepository.NewBigQueryRepository.

Definition cacheRepo (ttl : Z) : RedisRepository.t :=
  RedisRepository.NewRedisRepository primaryRepo ttl.

Definition userUseCase (ttl : Z) : usecase.UserUseCase :=
  usecase.NewUserUseCase primaryRepo (RedisRepository.as_UserRepository (cacheRepo ttl)).

End main.

(** ** Reading a trace *)

Definition is_store (e : Event) : bool :=
  match e with EvStore _ => true | _ => false end.

Definition is_redis (e : Event) : bool :=
  match e with EvRedis _ => true | _ => false end.



(** The events an execution [m] adds to the trace of [w]. *)
Definition new_events {A : Type} (m : M A) (w : World) : list Event :=
  drop (length (trace w)) (trace (snd (m w))).

Definition store_calls (tr : list Event) : nat := length (List.filter is_store tr).
Definition redis_calls (tr : list Event) : nat := length (List.filter is_redis tr).

(** A world at rest: a table, a keyspace, both backends answering. *)
Definition quiet (table : list entity.User) (db : gmap string json) : World :=
  mkWorld table [] db [] [] 0 [] [].

(** ** Properties of executions *)

(** The page size an event carries, when it carries one. *)
Definition requested_size (e : Event) : option Z :=
  match e with
  | EvStore (SelectPage pageSize _) => Some pageSize
  | EvValidatePagination _ given => Some (PageSize given)
  | _ => None
  end.

(** No statement goes to the warehouse once a command has gone to Redis. *)
Fixpoint store_first (tr : list Event) : bool :=
  match tr with
  | [] => true
  | e :: tr' =>
      if is_redis e then forallb (λ e', negb (is_store e')) tr'
      else store_first tr'
  end.

(** The write path: [op] is the operation of the cache layer, [store_op] the
    operation of the store adapter it wraps.  The store comes first; when
    the store operation fails so does [op]; a failed [op] has not touched
    the cache; a successful one has called the store. *)
Definition write_discipline (store_op op : M (option error)) (w : World) : Prop :=
  store_first (new_events op w) = true ∧
  match fst (store_op w), fst (op w) with
  | Some _, None => False
  | _, Some _ =>
      redis_calls (new_events op w) = 0%nat ∧ redis_db (snd (op w)) = redis_db w
  | None, None => (0 < store_calls (new_events op w))%nat
  end.

(** The next round trip to Redis is answered. *)
Definition redis_answers (w : World) : bool :=
  match redis_script w with
  | [] | R_ok :: _ => true
  | _ => false
  end.

(** The next call to the BigQuery client succeeds. *)
Definition store_answers (w : World) : bool :=
  match bq_script w with
  | [] | BQ_ok :: _ => true
  | _ => false
  end.

(** What a read of the cache gives for a record key: a user when Redis
    answers and the text under the key decodes into one, nothing on a miss,
    on text that does not decode, on an error and on a time-out. *)
Definition cached_user (w : World) (key : string) : option entity.User :=
  if redis_answers w then
    match redis_db w !! key with
    | Some (JUser u) => Some u
    | Some JNull => Some entity.zero
    | _ => None
    end
  else None.

Definition cached_users (w : World) (key : string) : option (list entity.User) :=
  if redis_answers w then
    match redis_db w !! key with
    | Some (JUsers l) => Some l
    | Some JNull => Some []
    | _ => None
    end
  else None.

(** The world after a round trip that sent [cmds] and changed no key. *)
Definition after_redis (cmds : list RedisCmd) (w : World) : World :=
  mkWorld (bq_table w) (bq_script w) (redis_db w) (tail (redis_script w))
          (goroutines w) (clock w) (uuids w) (trace w ++ map EvRedis cmds).

(** The result of the store adapter as the cache layer hands it on: a value
    as it is, an error wrapped with [%w]. *)
Definition through {A : Type} (msg : string) (zero : A) (res : A * option error)
    : A * option error :=
  match snd res with
  | Some e => (zero, Some (Wrap msg e))
  | None => (fst res, None)
  end.

(** The error of the store adapter as a write of the cache layer hands it on. *)
Definition wrapped (msg : string) (err : option error) : option error :=
  match err with
  | Some e => Some (Wrap msg e)
  | None => None
  end.




(** The goroutines an execution [m] starts in [w]. *)
Definition new_goroutines {A : Type} (m : M A) (w : World) : list task :=
  drop (length (goroutines w)) (goroutines (snd (m w))).


(** The trace of an invalidation that started in [w1] and ended in [w']: the
    two [DEL] commands, and a log line exactly when Redis did not answer. *)
Definition invalidation_trace (msg id : string) (w1 w' : World) : Prop :=
  ∃ log,
    trace w' =
      (trace w1
       ++ [EvRedis (DEL (repository.RedisRepository.generateKey id));
           EvRedis (DEL "users:list:*")]
       ++ log)%list ∧
    if redis_answers w1 then log = [] else ∃ e, log = [EvLog msg e].

(** A write of the cache layer after the store adapter returned
    [(err, w1)]: a failure of the store ends the operation in [w1]; after a
    success the cache is invalidated, and a failed invalidation is logged. *)
Definition after_store (msg id : string) (store : option error * World)
    (w' : World) : Prop :=
  match fst store with
  | Some _ => w' = snd store
  | None => invalidation_trace msg id (snd store) w'
  end.

(** No row with this identifier is in the table. *)
Definition absent (id : string) (w : World) : Prop :=
  Forall (λ u, entity.ID u ≠ id) (bq_table w).



(** ** internal/delivery/http/handler.go *)

(** [strconv.Atoi]: an optional sign ([+] is character 43, [-] is 45), then
    one or more decimal digits; the value must fit Go's [int].  On a range
    error Go returns the nearest bound together with the error. *)
Definition digit_of (c : Ascii.ascii) : option Z :=
  let n := Z.of_N (Ascii.N_of_ascii c) in
  if (48 <=? n) && (n <=? 57) then Some (n - 48) else None.

Fixpoint parse_digits (s : string) (acc : Z) : option Z :=
  match s with
  | EmptyString => Some acc
  | String c s' =>
      match digit_of c with
      | Some d => parse_digits s' (10 * acc + d)
      | None => None
      end
  end.

Definition strconv_Atoi (s : string) : Z * option error :=
  let '(negative, digits) :=
    match s with
    | String c rest =>
        if Ascii.eqb c (Ascii.ascii_of_nat 43) then (false, rest)
        else if Ascii.eqb c (Ascii.ascii_of_nat 45) then (true, rest)
        else (false, s)
    | EmptyString => (false, s)
    end in
  if is_empty digits then (0, Some (External "strconv.Atoi: invalid syntax"))
  else
    match parse_digits digits 0 with
    | None => (0, Some (External "strconv.Atoi: invalid syntax"))
    | Some n =>
        let v := if negative then - n else n in
        if v <? - 2 ^ 63
        then (- 2 ^ 63, Some (External "strconv.Atoi: value out of range"))
        else if 2 ^ 63 - 1 <? v
        then (2 ^ 63 - 1, Some (External "strconv.Atoi: value out of range"))
        else (v, None)
    end.

Module http.

Definition StatusOK : Z := 200.
Definition StatusCreated : Z := 201.
Definition StatusBadRequest : Z := 400.
Definition StatusNotFound : Z := 404.
Definition StatusInternalServerError : Z := 500.

Definition ErrCodeValidation : string := "VALIDATION_ERROR".
Definition ErrCodeNotFound : string := "NOT_FOUND".
Definition ErrCodeInternal : string := "INTERNAL_ERROR".

(** The text of a message: a literal, or [err.Error()] of an error. *)
Inductive text : Type :=
| Literal (s : string)
| ErrorText (e : error).

Record ErrorResponse : Type := mkErrorResponse {
  Code : string;
  Message : text
}.

(** What a handler writes with [c.JSON]: the status and the value encoded. *)
Inductive body : Type :=
| BodyError (r : ErrorResponse)
| BodyPage (data : list entity.User) (page pageSize : Z)
| BodyUser (u : entity.User)
| BodyMessage (m : string).

Definition Response : Type := Z * body.

Record UserHandler : Type := mkHandler {
  userUseCase : usecase.UserUseCase
}.

Definition NewUserHandler (userUseCase : usecase.UserUseCase) : UserHandler :=
  mkHandler userUseCase.

Definition handleError (err : error) : Response :=
  if errors_Is err ErrUserNotFound
  then (StatusNotFound, BodyError (mkErrorResponse ErrCodeNotFound (Literal "User not found")))
  else if errors_Is err ErrValidation
  then (StatusBadRequest, BodyError (mkErrorResponse ErrCodeValidation (ErrorText err)))
  else (StatusInternalServerError,
        BodyError (mkErrorResponse ErrCodeInternal (Literal "Internal server error"))).

(** [GetUsers]; [pageStr] and [sizeStr] are [c.QueryParam("page")] and
    [c.QueryParam("pageSize")], empty when the parameter is not given. *)
Definition GetUsers (h : UserHandler) (pageStr sizeStr : string) : M Response :=
  let page := 1 in
  let pageSize := 10 in
  let page :=
    if negb (is_empty pageStr) then
      let '(p, err) := strconv_Atoi pageStr in
      match err with
      | None => if p >? 0 then p else page
      | Some _ => page
      end
    else page in
  let pageSize :=
    if negb (is_empty sizeStr) then
      let '(s, err) := strconv_Atoi sizeStr in
      match err with
      | None => if s >? 0 then s else pageSize
      | Some _ => pageSize
      end
    else pageSize in
  '(users, err) ← usecase.GetAllUsers (userUseCase h) page pageSize;
  match err with
  | Some err => mret (handleError err)
  | None => mret (StatusOK, BodyPage users page pageSize)
  end.

(** [GetUser]; [id] is [c.Param("id")]. *)
Definition GetUser (h : UserHandler) (id : string) : M Response :=
  '(user, err) ← usecase.GetUserByID (userUseCase h) id;
  match err with
  | Some err => mret (handleError err)
  | None => mret (StatusOK, BodyUser user)
  end.

Definition invalid_payload : Response :=
  (StatusBadRequest,
   BodyError (mkErrorResponse ErrCodeValidation (Literal "Invalid request payload"))).

(** [CreateUser]; [bound] is what [c.Bind(&user)] leaves: the decoded user,
    or nothing when it returns an error. *)
Definition CreateUser (h : UserHandler) (bound : option entity.User) : M Response :=
  match bound with
  | None => mret invalid_payload
  | Some user =>
      '(createdUser, err) ← usecase.CreateUser (userUseCase h) user;
      match err with
      | Some err => mret (handleError err)
      | None => mret (StatusCreated, BodyUser createdUser)
      end
  end.

Definition UpdateUser (h : UserHandler) (id : string) (bound : option entity.User)
    : M Response :=
  match bound with
  | None => mret invalid_payload
  | Some user =>
      let user := entity.mkUser id (entity.Name user) (entity.Email user)
                                (entity.CreatedAt user) (entity.UpdatedAt user) in
      '(updatedUser, err) ← usecase.UpdateUser (userUseCase h) user;
      match err with
      | Some err => mret (handleError err)
      | None => mret (StatusOK, BodyUser updatedUser)
      end
  end.

Definition DeleteUser (h : UserHandler) (id : string) : M Response :=
  err ← usecase.DeleteUser (userUseCase h) id;
  match err with
  | Some err => mret (handleError err)
  | None => mret (StatusOK, BodyMessage "User deleted successfully")
  end.

(** [SetupRoutes] with the use case of [main]. *)
Definition handler (ttl : Z) : UserHandler := NewUserHandler (main.userUseCase ttl).

End http.

(** ** More properties of executions *)

(** [u] is not older than [v]. *)
Definition newest_first (u v : entity.User) : Prop :=
  entity.CreatedAt v ≤ entity.CreatedAt u.

(** The rows of the table that carry an identifier, in table order. *)
Definition rows_of (id : string) (w : World) : list entity.User :=
  repository.BigQueryRepository.select (SelectByID id) (bq_table w).

(** A list in the order of [ORDER BY created_at DESC]: no row is older than
    a row after it. *)
Fixpoint descending (l : list entity.User) : Prop :=
  match l with
  | [] => True
  | u :: l' => Forall (newest_first u) l' ∧ descending l'
  end.

(** An event of a read: a [SELECT], a [GET], a normalisation or a log line. *)
Definition is_read (e : Event) : bool :=
  match e with
  | EvStore (SelectPage _ _) | EvStore (SelectByID _) => true
  | EvStore _ => false
  | EvRedis (GET _) => true
  | EvRedis _ => false
  | EvLog _ _ | EvValidatePagination _ _ => true
  end.

(** An event that puts nothing into the cache: any event but a [SET]. *)
Definition is_not_SET (e : Event) : bool :=
  match e with
  | EvRedis (SET _ _ _) => false
  | _ => true
  end.

(** The character [:] (58), which separates the parts of a list key. *)
Definition colon : Ascii.ascii := Ascii.ascii_of_nat 58.

(** The string does not contain the character. *)
Fixpoint free_of (c : Ascii.ascii) (s : string) : Prop :=
  match s with
  | EmptyString => True
  | String c' s' => c' ≠ c ∧ free_of c s'
  end.

(** The answers of [handleError]. *)
Definition not_found_response : http.Response :=
  (http.StatusNotFound,
   http.BodyError (http.mkErrorResponse http.ErrCodeNotFound
                     (http.Literal "User not found"))).

Definition internal_error_response : http.Response :=
  (http.StatusInternalServerError,
   http.BodyError (http.mkErrorResponse http.ErrCodeInternal
                     (http.Literal "Internal server error"))).

Definition validation_response (e : error) : http.Response :=
  (http.StatusBadRequest,
   http.BodyError (http.mkErrorResponse http.ErrCodeValidation (http.ErrorText e))).

(** A query parameter as [GetUsers] reads it: the number when the text is a
    positive decimal integer, the default otherwise. *)
Definition query_number (text : string) (default : Z) : Z :=
  match strconv_Atoi text with
  | (n, None) => if 0 <? n then n else default
  | (_, Some _) => default
  end.

(** ** Sample data *)

Definition ann : entity.User := entity.mkUser "u1" "Ann" "ann@example.org" 5 5.
Definition ann' : entity.User :=
  entity.mkUser "u1" "Ann B." "ann.b@example.org" 5 9.
Definition blank : entity.User := entity.mkUser "" "Bob" "bob@example.org" 3 3.

(** Both backends answer; the record and the first list page are cached. *)
Definition cached_world : World :=
  quiet [ann]
    (<["users:u1" := JUser ann]>
       (<["users:list:page_1:size_10" := JUsers [ann]]> ∅)).


(** The warehouse refuses the next statement. *)
Definition store_down_once : World :=
  mkWorld [ann] [BQ_fail_start "backend error"] ∅ [] [] 9 [] [].

Import repository.
Import BaseRepositoryImpl.

(** ** Proof tools *)

Ltac unfold_M :=
  unfold mbind, M_bind, mret, M_ret, emit, bq_next, bq_rows, bq_write,
    redis_peek, redis_next, redis_keys, redis_write, go, time_Now, uuid_New in *.

Ltac unfold_bq :=
  unfold BigQueryRepository.NewBigQueryRepository, BigQueryRepository.GetAll,
    BigQueryRepository.Create, BigQueryRepository.Update,
    BigQueryRepository.Delete, BigQueryRepository.GetByID,
    BigQueryRepository.executeQuery, BigQueryRepository.executeUpdateQuery,
    ValidatePagination, ValidateID in *.

Ltac unfold_redis :=
  unfold RedisRepository.as_UserRepository, RedisRepository.GetAll,
    RedisRepository.GetByID, RedisRepository.Create, RedisRepository.Update,
    RedisRepository.Delete, RedisRepository.invalidateCache,
    RedisRepository.cacheGet, RedisRepository.cacheSet,
    RedisRepository.executeWithTimeout, RedisRepository.pipe_Exec,
    RedisRepository.pipe_Del, RedisRepository.client_Get,
    RedisRepository.client_Set, RedisRepository.NewRedisRepository,
    ValidatePagination, ValidateID in *.

Ltac unfold_main :=
  unfold main.userUseCase, main.cacheRepo, main.primaryRepo,
    usecase.NewUserUseCase in *.

(** The trace only grows: what was appended is read back with [drop]. *)
Ltac read_trace :=
  unfold new_events; cbn [trace snd fst];
  rewrite <- ?app_assoc; rewrite ?drop_app_length; cbn [app].


Ltac cases_redis rs := destruct rs as [|[| ? |] ?].
Ltac cases_bq bqs := destruct bqs as [|[| ? | ?] ?].

(** The cache layer over the BigQuery adapter, as [main] wires them. *)
Ltac wired :=
  unfold_main;
  cbn [usecase.cacheRepo UserRepository.GetAll UserRepository.GetByID
       UserRepository.Create UserRepository.Update UserRepository.Delete
       RedisRepository.as_UserRepository];
  unfold_redis; unfold_bq;
  cbn [UserRepository.GetAll UserRepository.GetByID UserRepository.Create
       UserRepository.Update UserRepository.Delete RedisRepository.repository
       RedisRepository.ttl].

Local Arguments RedisRepository.generateKey : simpl never.
Local Arguments RedisRepository.generateListKey : simpl never.
Local Arguments CalculateOffset : simpl never.
Local Arguments BigQueryRepository.order_by_created_at_desc : simpl never.
Local Arguments BigQueryRepository.select : simpl never.
Local Arguments BigQueryRepository.modify : simpl never.

(** ** Cache keys *)

Lemma generateKey_inj (id1 id2 : string) :
  RedisRepository.generateKey id1 = RedisRepository.generateKey id2 → id1 = id2.
Proof.
  unfold RedisRepository.generateKey, RedisRepository.userKeyPrefix.
  cbn. intros H. by simplify_eq.
Qed.

(** C8, as the code has it: the key of a record coincides with the key of a
    list page exactly when the identifier is the text ["list:"] followed by
    the page part of that list key; every other identifier, in particular
    every one that does not start with ["list:"], has a key outside the
    list keys. *)
Theorem C8_keys_meet_only_on_list_ids (id : string) (params : PaginationParams) :
  RedisRepository.generateKey id = RedisRepository.generateListKey params
  ↔ id = "list:" +:+ RedisRepository.pageKeyFormat (Page params) (PageSize params).
Proof.
  unfold RedisRepository.generateKey, RedisRepository.generateListKey,
    RedisRepository.userKeyPrefix, RedisRepository.userListKeyPrefix.
  cbn [append]. split; intros H.
  - by simplify_eq.
  - by rewrite H.
Qed.

(** C8, counterexample: the identifier ["list:page_1:size_10"] has the cache
    key of the first list page of size ten. *)
Lemma C8_counterexample :
  RedisRepository.generateKey "list:page_1:size_10"
  = RedisRepository.generateListKey (mkParams 1 10).
Proof. vm_compute. reflexivity. Qed.

(** ** The cache read *)

Lemma cacheGet_world `{RedisRepository.Codec A} r key (result : A) w :
  snd (RedisRepository.cacheGet r key result w) = after_redis [GET key] w.
Proof.
  destruct w as [tbl bqs db rs gs clk us tr].
  unfold_redis. unfold_M. unfold after_redis. cbn.
  cases_redis rs; cbn; try done.
  all: destruct (db !! key) as [d|]; cbn; done.
Qed.

Lemma cacheGet_user_hit r key w u :
  cached_user w key = Some u →
  fst (RedisRepository.cacheGet r key entity.zero w) = (u, None).
Proof.
  destruct w as [tbl bqs db rs gs clk us tr].
  unfold cached_user, redis_answers. unfold_redis. unfold_M. cbn.
  cases_redis rs; cbn; try done.
  all: destruct (db !! key) as [[]|]; cbn; intros; by simplify_eq.
Qed.

Lemma cacheGet_user_miss r key w :
  cached_user w key = None →
  ∃ e, fst (RedisRepository.cacheGet r key entity.zero w) = (entity.zero, Some e).
Proof.
  destruct w as [tbl bqs db rs gs clk us tr].
  unfold cached_user, redis_answers. unfold_redis. unfold_M. cbn.
  cases_redis rs; cbn; try by eauto.
  all: destruct (db !! key) as [[]|]; cbn; intros; simplify_eq; eauto.
Qed.

Lemma cacheGet_users_hit r key w l :
  cached_users w key = Some l →
  fst (RedisRepository.cacheGet r key [] w) = (l, None).
Proof.
  destruct w as [tbl bqs db rs gs clk us tr].
  unfold cached_users, redis_answers. unfold_redis. unfold_M. cbn.
  cases_redis rs; cbn; try done.
  all: destruct (db !! key) as [[]|]; cbn; intros; by simplify_eq.
Qed.

Lemma cacheGet_users_miss r key w :
  cached_users w key = None →
  ∃ e, fst (RedisRepository.cacheGet r key [] w) = ([], Some e).
Proof.
  destruct w as [tbl bqs db rs gs clk us tr].
  unfold cached_users, redis_answers. unfold_redis. unfold_M. cbn.
  cases_redis rs; cbn; try by eauto.
  all: destruct (db !! key) as [[]|]; cbn; intros; simplify_eq; eauto.
Qed.

(** ** The read path, for any wrapped repository *)

Lemma GetByID_result r id w :
  fst (RedisRepository.GetByID r id w) =
  if is_empty id then (entity.zero, Some ErrNotFound)
  else match cached_user w (RedisRepository.generateKey id) with
       | Some u => (u, None)
       | None =>
           through "failed to get user from repository" entity.zero
             (fst (UserRepository.GetByID (RedisRepository.repository r) id
                     (after_redis [GET (RedisRepository.generateKey id)] w)))
       end.
Proof.
  unfold RedisRepository.GetByID, ValidateID.
  destruct (is_empty id); [done|].
  unfold mbind at 1, M_bind at 1.
  pose proof (cacheGet_world r (RedisRepository.generateKey id) entity.zero w) as Hw.
  destruct (cached_user w (RedisRepository.generateKey id)) as [u|] eqn:Hc.
  - pose proof (cacheGet_user_hit r _ w u Hc) as Hh.
    destruct (RedisRepository.cacheGet _ _ _ w) as [[u' e'] w1]. cbn in *.
    by simplify_eq.
  - destruct (cacheGet_user_miss r _ w Hc) as [e Hm].
    destruct (RedisRepository.cacheGet _ _ _ w) as [[u' e'] w1]. cbn in *.
    simplify_eq. unfold_M. unfold through.
    destruct (UserRepository.GetByID _ _ _) as [[u2 [e2|]] w2]; done.
Qed.

Lemma GetAll_result r params w :
  let n := normalize params in
  let key := RedisRepository.generateListKey n in
  let w0 := snd (emit (EvValidatePagination CacheLayer params) w) in
  fst (RedisRepository.GetAll r params w) =
  match cached_users w key with
  | Some l => (l, None)
  | None =>
      through "failed to get users from repository" []
        (fst (UserRepository.GetAll (RedisRepository.repository r) n
                (after_redis [GET key] w0)))
  end.
Proof.
  intros n key w0.
  unfold RedisRepository.GetAll, ValidatePagination.
  unfold mbind at 1 2, M_bind at 1 2.
  change ((emit (EvValidatePagination CacheLayer params)
           ≫= λ _ : (), mret (normalize params)) w) with (n, w0).
  cbn iota beta. fold key.
  assert (Hcu : cached_users w0 key = cached_users w key) by (by destruct w).
  pose proof (cacheGet_world r key [] w0) as Hw.
  rewrite <- Hcu.
  destruct (cached_users w0 key) as [l|] eqn:Hc.
  - pose proof (cacheGet_users_hit r _ w0 l Hc) as Hh.
    destruct (RedisRepository.cacheGet _ _ _ w0) as [[u' e'] w1]. cbn in *.
    by simplify_eq.
  - destruct (cacheGet_users_miss r _ w0 Hc) as [e Hm].
    destruct (RedisRepository.cacheGet _ _ _ w0) as [[u' e'] w1]. cbn in *.
    simplify_eq. unfold_M. unfold through.
    destruct (UserRepository.GetAll _ _ _) as [[u2 [e2|]] w2]; done.
Qed.

Lemma absent_select id w :
  absent id w → BigQueryRepository.select (SelectByID id) (bq_table w) = [].
Proof.
  unfold absent, BigQueryRepository.select. intros H.
  induction H as [|u l Hu _ IH]; [done|].
  rewrite filter_cons. destruct (decide (entity.ID u = id)); [done|]. exact IH.
Qed.

Lemma select_absent id w :
  BigQueryRepository.select (SelectByID id) (bq_table w) = [] → absent id w.
Proof.
  unfold absent, BigQueryRepository.select. intros H.
  induction (bq_table w) as [|u l IH]; [constructor|].
  rewrite filter_cons in H. destruct (decide (entity.ID u = id)); [done|].
  constructor; [done|]. by apply IH.
Qed.

Lemma Create_discipline ttl user w :
  write_discipline (BigQueryRepository.Create user)
    (RedisRepository.Create (main.cacheRepo ttl) user) w.
Proof.
  unfold write_discipline. wired. unfold ValidateID.
  destruct w as [tbl bqs db rs gs clk us tr]. unfold_M. cbn.
  cases_bq bqs; cbn; read_trace; try done.
  all: cases_redis rs; cbn; read_trace; cbn; split; try done; unfold store_calls; cbn; lia.
Qed.

Lemma Update_discipline ttl user w :
  write_discipline (BigQueryRepository.Update user)
    (RedisRepository.Update (main.cacheRepo ttl) user) w.
Proof.
  unfold write_discipline. wired. unfold ValidateID.
  destruct w as [tbl bqs db rs gs clk us tr]. unfold_M.
  destruct (is_empty (entity.ID user)); cbn; read_trace.
  { rewrite drop_all. done. }
  destruct bqs as [|o1 bqs]; [|destruct o1; cases_bq bqs]; cbn; read_trace; try done.
  all: destruct (BigQueryRepository.select _ tbl) as [|u l]; cbn; read_trace; try done.
  all: cases_redis rs; cbn; read_trace; cbn; split; try done; unfold store_calls; cbn; lia.
Qed.

Lemma Delete_discipline ttl id w :
  write_discipline (BigQueryRepository.Delete id)
    (RedisRepository.Delete (main.cacheRepo ttl) id) w.
Proof.
  unfold write_discipline. wired. unfold ValidateID.
  destruct w as [tbl bqs db rs gs clk us tr]. unfold_M.
  destruct (is_empty id); cbn; read_trace.
  { rewrite drop_all. done. }
  destruct bqs as [|o1 bqs]; [|destruct o1; cases_bq bqs]; cbn; read_trace; try done.
  all: destruct (BigQueryRepository.select _ tbl) as [|u l]; cbn; read_trace; try done.
  all: cases_redis rs; cbn; read_trace; cbn; split; try done; unfold store_calls; cbn; lia.
Qed.

Lemma Delete_absent ttl id w :
  absent id w →
  ∃ e, fst (RedisRepository.Delete (main.cacheRepo ttl) id w) = Some e ∧
       redis_calls (new_events (RedisRepository.Delete (main.cacheRepo ttl) id) w) = 0%nat ∧
       bq_table (snd (RedisRepository.Delete (main.cacheRepo ttl) id w)) = bq_table w ∧
       (store_answers w = true → errors_Is e ErrNotFound = true).
Proof.
  intros Ha. apply absent_select in Ha. revert Ha.
  wired. unfold ValidateID, store_answers.
  destruct w as [tbl bqs db rs gs clk us tr]. unfold_M.
  destruct (is_empty id); cbn; read_trace.
  { rewrite drop_all. eauto 10. }
  intros Ha.
  cases_bq bqs; cbn; rewrite ?Ha; cbn; read_trace; eauto 10.
Qed.

(** ** The store adapter *)





Lemma GetByID_world r id w :
  let key := RedisRepository.generateKey id in
  snd (RedisRepository.GetByID r id w) =
  if is_empty id then w
  else match cached_user w key with
       | Some _ => after_redis [GET key] w
       | None =>
           let res := UserRepository.GetByID (RedisRepository.repository r) id
                        (after_redis [GET key] w) in
           match snd (fst res) with
           | Some _ => snd res
           | None => snd (go (CacheUser key (fst (fst res))) (snd res))
           end
       end.
Proof.
  intros key. unfold RedisRepository.GetByID, ValidateID.
  destruct (is_empty id); [done|]. fold key.
  unfold mbind at 1, M_bind at 1.
  pose proof (cacheGet_world r key entity.zero w) as Hw.
  destruct (cached_user w key) as [u|] eqn:Hc.
  - pose proof (cacheGet_user_hit r _ w u Hc) as Hh.
    destruct (RedisRepository.cacheGet _ _ _ w) as [[u' e'] w1]. cbn in *.
    by simplify_eq.
  - destruct (cacheGet_user_miss r _ w Hc) as [e Hm].
    destruct (RedisRepository.cacheGet _ _ _ w) as [[u' e'] w1]. cbn in *.
    simplify_eq. unfold_M.
    destruct (UserRepository.GetByID _ _ _) as [[u2 [e2|]] w2]; done.
Qed.

(** A read of the store adapter leaves the table, the cache and the pending
    goroutines as they are. *)
Lemma store_GetByID_frame id w :
  let w' := snd (BigQueryRepository.GetByID id w) in
  bq_table w' = bq_table w ∧ redis_db w' = redis_db w ∧
  redis_script w' = redis_script w ∧ goroutines w' = goroutines w.
Proof.
  unfold_bq. destruct w as [tbl bqs db rs gs clk us tr]. unfold_M.
  destruct (is_empty id); cbn; [done|].
  cases_bq bqs; cbn; try done.
  all: destruct (BigQueryRepository.select _ tbl); done.
Qed.

(** A goroutine of [GetByID] that runs while Redis answers stores the user. *)
Lemma schedule_CacheUser r i w key u :
  goroutines w !! i = Some (CacheUser key u) →
  redis_answers w = true →
  let w' := snd (RedisRepository.schedule r i w) in
  redis_db w' = <[key := JUser u]> (redis_db w) ∧
  redis_script w' = tail (redis_script w).
Proof.
  unfold RedisRepository.schedule, RedisRepository.run_task, redis_answers.
  intros -> Hans. unfold_redis.
  destruct w as [tbl bqs db rs gs clk us tr]. unfold_M. cbn in *.
  cases_redis rs; done.
Qed.

Lemma cached_user_None w key :
  redis_db w !! key = None → cached_user w key = None.
Proof. unfold cached_user. intros ->. by destruct (redis_answers w). Qed.

(** C6, as the code has it.  The cache holds nothing under the key of [id]
    and a first [GetByID] returns [u] from the store.  Once the goroutine
    that call started has run with Redis answering, a second [GetByID], its
    cache read answered, returns the same [u] and sends no statement to the
    store. *)
Theorem C6_miss_then_hit (ttl : Z) (w : World) (id : string) (u : entity.User) :
  let r := main.cacheRepo ttl in
  let w1 := snd (RedisRepository.GetByID r id w) in
  let w2 := snd (RedisRepository.schedule r (length (goroutines w)) w1) in
  redis_db w !! RedisRepository.generateKey id = None →
  fst (RedisRepository.GetByID r id w) = (u, None) →
  redis_answers w1 = true →
  redis_answers w2 = true →
  fst (RedisRepository.GetByID r id w2) = (u, None) ∧
  store_calls (new_events (RedisRepository.GetByID r id) w2) = 0%nat.
Proof.
  intros r w1 w2 Hempty Hfirst Hset Hread.
  set (key := RedisRepository.generateKey id) in *.
  pose proof (cached_user_None w key Hempty) as Hmiss.
  rewrite GetByID_result in Hfirst. fold key in Hfirst.
  destruct (is_empty id) eqn:Hid; [done|]. rewrite Hmiss in Hfirst.
  assert (Hw1 := GetByID_world r id w). cbn zeta in Hw1. fold w1 key in Hw1.
  rewrite Hid, Hmiss in Hw1.
  cbn [RedisRepository.repository r main.cacheRepo
       RedisRepository.NewRedisRepository main.primaryRepo
       UserRepository.GetByID BigQueryRepository.NewBigQueryRepository]
    in Hfirst, Hw1.
  destruct (store_GetByID_frame id (after_redis [GET key] w)) as (_ & Hdb & _ & Hgs).
  destruct (BigQueryRepository.GetByID id (after_redis [GET key] w))
    as [[u0 [e|]] wB]; cbn in Hfirst, Hw1, Hdb, Hgs; [done|].
  unfold through in Hfirst. cbn in Hfirst. injection Hfirst as ->.
  assert (Htask : goroutines w1 !! length (goroutines w) = Some (CacheUser key u)).
  { rewrite Hw1. cbn. rewrite Hgs. by apply list_lookup_middle. }
  destruct (schedule_CacheUser r _ w1 key u Htask Hset) as [Hdb2 _].
  fold w2 in Hdb2.
  assert (Hhit : cached_user w2 key = Some u).
  { unfold cached_user. by rewrite Hread, Hdb2, lookup_insert_eq. }
  split.
  - rewrite GetByID_result. fold key. by rewrite Hid, Hhit.
  - unfold new_events. rewrite GetByID_world. cbn zeta. fold key.
    rewrite Hid, Hhit.
    cbn. by rewrite drop_app_length.
Qed.

(** ** Rows under [Update] *)










(** ** Pagination *)

Lemma normalize_bounds params :
  1 ≤ Page (normalize params) ∧ 1 ≤ PageSize (normalize params).
Proof.
  unfold normalize.
  destruct (Z.ltb_spec (Page params) 1), (Z.ltb_spec (PageSize params) 1); cbn.
  all: repeat match goal with
       | |- context [?a <? ?b] => destruct (Z.ltb_spec a b)
       end; cbn; lia.
Qed.

Lemma normalize_fixed params :
  1 ≤ Page params → 1 ≤ PageSize params → normalize params = params.
Proof.
  intros H1 H2. unfold normalize.
  destruct (Z.ltb_spec (Page params) 1); [lia|].
  destruct (Z.ltb_spec (PageSize params) 1); [lia|]. done.
Qed.

Lemma normalize_idempotent params : normalize (normalize params) = normalize params.
Proof. destruct (normalize_bounds params). by apply normalize_fixed. Qed.

Lemma max_spec a b : usecase.max a b = Z.max a b.
Proof. unfold usecase.max. destruct (Z.gtb_spec a b); lia. Qed.


(** C10.  [GetAllUsers] hands the repository the page size
    [max(pageSize, 10)]: it is at least ten, it is ten for every request
    below ten, and it is the size in the parameters the cache layer
    receives, in the cache key and in the [LIMIT] of every statement, so no
    page of size one to nine is read through the use case. *)
Theorem C10_page_size_at_least_ten (ttl page pageSize : Z) (w : World) :
  let size := usecase.max pageSize 10 in
  let given := mkParams (usecase.max page 1) size in
  let tr := new_events (usecase.GetAllUsers (main.userUseCase ttl) page pageSize) w in
  10 ≤ size ∧
  (if decide (pageSize < 10) then size = 10 else size = pageSize) ∧
  head tr = Some (EvValidatePagination CacheLayer given) ∧
  tr !! 1%nat = Some (EvRedis (GET (RedisRepository.generateListKey given))) ∧
  Forall (λ e, match requested_size e with
               | Some s => s = size
               | None => True
               end) tr.
Proof.
  intros size given tr. subst tr.
  assert (Hs : 10 ≤ size) by (subst size; rewrite max_spec; lia).
  assert (Hp : 1 ≤ usecase.max page 1) by (rewrite max_spec; lia).
  assert (Hn : normalize given = given) by (apply normalize_fixed; cbn; lia).
  split; [done|]. split.
  { subst size. rewrite max_spec. case_decide; lia. }
  unfold usecase.GetAllUsers. wired. fold size given. rewrite !Hn.
  destruct w as [tbl bqs db rs gs clk us tr]. unfold_M.
  cbn [bq_table bq_script redis_db redis_script goroutines clock uuids trace].
  cases_redis rs; cbn;
    try (destruct (db !! _) as [[]|]; cbn);
    try (cases_bq bqs; cbn); read_trace.
  all: repeat split; repeat apply Forall_cons_2; try apply Forall_nil_2.
  all: rewrite ?Hn; done.
Qed.

(** ** Errors *)

Lemma errors_Is_refl e : errors_Is e e = true.
Proof. destruct e; cbn; by rewrite bool_decide_eq_true_2. Qed.


Lemma errors_Is_Wrap_NotFound msg e :
  errors_Is (Wrap msg e) ErrNotFound = errors_Is e ErrNotFound.
Proof. cbn. by rewrite bool_decide_eq_false_2. Qed.

Lemma errors_Is_External_NotFound m : errors_Is (External m) ErrNotFound = false.
Proof. cbn. by rewrite bool_decide_eq_false_2. Qed.





(** ** The write path, for any wrapped repository *)

Lemma invalidateCache_trace r msg id w :
  let res := RedisRepository.invalidateCache r id w in
  invalidation_trace msg id w
    (snd ((match fst res return M unit with
           | Some err => emit (EvLog msg err)
           | None => mret tt
           end) (snd res))) ∧
  bq_table (snd res) = bq_table w.
Proof.
  cbn zeta. unfold invalidation_trace, redis_answers. unfold_redis.
  destruct w as [tbl bqs db rs gs clk us tr]. unfold_M. cbn.
  cases_redis rs; cbn; (split; [|done]); rewrite <- ?app_assoc; cbn.
  - by exists [].
  - by exists [].
  - eexists [_]. eauto.
  - eexists [_]. eauto.
Qed.

Lemma bind_run {A B : Type} (m : M A) (f : A → M B) (w : World) :
  (m ≫= f) w = f (fst (m w)) (snd (m w)).
Proof. unfold mbind, M_bind. by destruct (m w). Qed.

Lemma invalidate_then_log r msg id w1 :
  let w' := snd ((RedisRepository.invalidateCache r id
                  ≫= λ err, match err with
                            | Some err => emit (EvLog msg err)
                            | None => mret tt
                            end ≫= λ _, mret (@None error)) w1) in
  invalidation_trace msg id w1 w'.
Proof.
  cbn zeta. rewrite !bind_run.
  destruct (invalidateCache_trace r msg id w1) as [Ht _]. cbn zeta in Ht.
  destruct (RedisRepository.invalidateCache r id w1) as [[e|] w2]; exact Ht.
Qed.

Lemma Create_run r user w :
  let store := UserRepository.Create (RedisRepository.repository r) user w in
  fst (RedisRepository.Create r user w)
  = wrapped "failed to create user in repository" (fst store) ∧
  after_store "Failed to invalidate cache after create" (entity.ID user) store
    (snd (RedisRepository.Create r user w)).
Proof.
  cbn zeta. unfold RedisRepository.Create, after_store. rewrite bind_run.
  pose proof (invalidate_then_log r "Failed to invalidate cache after create"
                (entity.ID user)) as Hinv.
  destruct (UserRepository.Create _ user w) as [[e|] w1]; cbn [fst snd wrapped].
  - done.
  - split; [by rewrite !bind_run|]. apply Hinv.
Qed.



(** ** [NotFound] from the store adapter *)






Lemma wrapped_Some msg store e :
  wrapped msg store = Some e → ∃ e', store = Some e' ∧ e = Wrap msg e'.
Proof. destruct store; cbn; intros; simplify_eq; eauto. Qed.

Lemma through_Some {A} msg (z : A) res e :
  snd (through msg z res) = Some e → ∃ e', snd res = Some e' ∧ e = Wrap msg e'.
Proof.
  unfold through. destruct res as [a [e'|]]; cbn; intros; simplify_eq; eauto.
Qed.


(** ** The claims *)

(** C3.  Every write of the cache layer goes to the store adapter first: no
    statement reaches the warehouse after a Redis command; when the adapter's
    operation fails the write fails and has sent nothing to Redis and
    changed no key; a write that succeeds has called the store.  A [Delete]
    of an identifier no row of the table carries fails without a cache call,
    and with [NotFound] whenever the warehouse answers the existence check. *)
Theorem C3_store_before_cache (ttl : Z) (w : World) (user : entity.User) (id : string) :
  let r := main.cacheRepo ttl in
  write_discipline (BigQueryRepository.Create user) (RedisRepository.Create r user) w ∧
  write_discipline (BigQueryRepository.Update user) (RedisRepository.Update r user) w ∧
  write_discipline (BigQueryRepository.Delete id) (RedisRepository.Delete r id) w ∧
  (absent id w →
   ∃ e, fst (RedisRepository.Delete r id w) = Some e ∧
        redis_calls (new_events (RedisRepository.Delete r id) w) = 0%nat ∧
        redis_db (snd (RedisRepository.Delete r id w)) = redis_db w ∧
        (store_answers w = true → errors_Is e ErrNotFound = true)).
Proof.
  cbn zeta. split; [apply Create_discipline|].
  split; [apply Update_discipline|].
  pose proof (Delete_discipline ttl id w) as Hd. split; [exact Hd|].
  intros Ha. destruct (Delete_absent ttl id w Ha) as (e & He & Hr & _ & Hn).
  exists e. repeat split; try done.
  destruct Hd as [_ Hd]. rewrite He in Hd.
  by destruct (fst (BigQueryRepository.Delete id w)); destruct Hd.
Qed.

Lemma C3_witness :
  absent "u2" (quiet [ann] ∅) ∧
  ∃ e, fst (RedisRepository.Delete (main.cacheRepo 300) "u2" (quiet [ann] ∅)) = Some e ∧
       errors_Is e ErrNotFound = true.
Proof.
  assert (Ha : absent "u2" (quiet [ann] ∅)).
  { unfold absent. cbn. repeat constructor. discriminate. }
  split; [exact Ha|].
  destruct (C3_store_before_cache 300 (quiet [ann] ∅) ann "u2") as (_ & _ & _ & H).
  destruct (H Ha) as (e & He & _ & _ & Hn).
  exists e. split; [exact He|]. apply Hn. reflexivity.
Defined.



(** [DEL] of the text ["users:list:*"] removes the key of that name and no
    list page: whatever Redis answers, every list key holds after the
    invalidation what it held before, unless the record key itself is that
    list key. *)
Lemma invalidateCache_spares_list_pages r id params w :
  RedisRepository.generateKey id ≠ RedisRepository.generateListKey params →
  redis_db (snd (RedisRepository.invalidateCache r id w))
    !! RedisRepository.generateListKey params
  = redis_db w !! RedisRepository.generateListKey params.
Proof.
  intros Hne. unfold_redis.
  destruct w as [tbl bqs db rs gs clk us tr]. unfold_M. cbn.
  cases_redis rs; cbn; try done.
  all: rewrite !lookup_delete_ne; [done|done|].
  all: unfold RedisRepository.generateListKey, RedisRepository.userListKeyPrefix,
         RedisRepository.pageKeyFormat; cbn; intros ?; simplify_eq.
Qed.

(** C1, the code at the failing input.  The record and the first list page
    are cached and both backends answer.  [Update] succeeds, the store holds
    the new record, the invalidation is answered without error and removes
    the record key, and the list page is still in the cache: the next
    [GetAll] of that page returns the record as it was before the update. *)
Theorem C1_list_page_survives_update :
  let r := main.cacheRepo 300 in
  let w1 := snd (RedisRepository.Update r ann' cached_world) in
  fst (RedisRepository.Update r ann' cached_world) = None ∧
  new_events (RedisRepository.Update r ann') cached_world
  = [EvStore (SelectByID "u1");
     EvStore (UpdateByID "Ann B." "ann.b@example.org" 9 "u1");
     EvRedis (DEL "users:u1"); EvRedis (DEL "users:list:*")] ∧
  bq_table w1 = [ann'] ∧
  redis_db w1 !! RedisRepository.generateKey "u1" = None ∧
  redis_db w1 !! RedisRepository.generateListKey (mkParams 1 10)
  = Some (JUsers [ann]) ∧
  fst (RedisRepository.GetAll r (mkParams 1 10) w1) = ([ann], None).
Proof. vm_compute. repeat split; reflexivity. Qed.






(** C6, counterexample.  The cache is empty and both backends answer; the
    second [GetByID] comes before the goroutine of the first has run, misses
    the cache and asks the store again. *)
Lemma C6_counterexample :
  let r := main.cacheRepo 300 in
  let w := quiet [ann] ∅ in
  let w1 := snd (RedisRepository.GetByID r "u1" w) in
  redis_db w = ∅ ∧
  fst (RedisRepository.GetByID r "u1" w) = (ann, None) ∧
  goroutines w1 = [CacheUser "users:u1" ann] ∧
  fst (RedisRepository.GetByID r "u1" w1) = (ann, None) ∧
  new_events (RedisRepository.GetByID r "u1") w1
  = [EvRedis (GET "users:u1"); EvStore (SelectByID "u1")] ∧
  store_calls (new_events (RedisRepository.GetByID r "u1") w1) = 1%nat.
Proof. vm_compute. repeat split; reflexivity. Qed.

Lemma C6_witness :
  let r := main.cacheRepo 300 in
  let w := quiet [ann] ∅ in
  let w1 := snd (RedisRepository.GetByID r "u1" w) in
  let w2 := snd (RedisRepository.schedule r (length (goroutines w)) w1) in
  fst (RedisRepository.GetByID r "u1" w) = (ann, None) ∧
  fst (RedisRepository.GetByID r "u1" w2) = (ann, None) ∧
  store_calls (new_events (RedisRepository.GetByID r "u1") w2) = 0%nat.
Proof.
  cbn zeta. split; [vm_compute; reflexivity|].
  apply (C6_miss_then_hit 300 (quiet [ann] ∅) "u1" ann).
  - vm_compute. reflexivity.
  - vm_compute. reflexivity.
  - vm_compute. reflexivity.
  - vm_compute. reflexivity.
Defined.

(** ** Pagination helpers *)

(** X1.  [ValidatePagination] returns a page and a page size that are at
    least one, and returns its own result unchanged when run again; a page
    or size that is at least one is kept, a page below one becomes 1 and a
    size below one becomes 10, each independently of the other. *)
Theorem ValidatePagination_normal_form (b : Layer) (params : PaginationParams) (w : World) :
  let n := fst (ValidatePagination b params w) in
  (1 ≤ Page n ∧ 1 ≤ PageSize n) ∧
  fst (ValidatePagination b n w) = n ∧
  (1 ≤ Page params → Page n = Page params) ∧
  (1 ≤ PageSize params → PageSize n = PageSize params) ∧
  (Page params < 1 → Page n = 1) ∧
  (PageSize params < 1 → PageSize n = 10).
Proof.
  cbn zeta. unfold ValidatePagination. unfold_M. cbn [fst].
  split; [apply normalize_bounds|]. split; [apply normalize_idempotent|].
  unfold normalize.
  destruct (Z.ltb_spec (Page params) 1), (Z.ltb_spec (PageSize params) 1); cbn;
    repeat split; intros; try lia.
  all: destruct (Z.ltb_spec (PageSize params) 1); cbn; lia.
Qed.

Lemma wrap64_small z : - 2 ^ 63 ≤ z < 2 ^ 63 → wrap64 z = z.
Proof. intros H. unfold wrap64. rewrite Z.mod_small; lia. Qed.

Lemma wrap64_range z : - 2 ^ 63 ≤ wrap64 z < 2 ^ 63.
Proof.
  unfold wrap64. pose proof (Z.mod_pos_bound (z + 2 ^ 63) (2 ^ 64)). lia.
Qed.

(** X2.  For a page and a page size that are at least one and whose
    product stays within Go's [int], [CalculateOffset] is
    [(page - 1) * pageSize]: it is not negative, it is zero on the first
    page, and the next page starts [pageSize] rows further. *)
Theorem CalculateOffset_in_range (params : PaginationParams) :
  1 ≤ Page params < 2 ^ 63 →
  1 ≤ PageSize params →
  (Page params - 1) * PageSize params < 2 ^ 63 →
  CalculateOffset params = (Page params - 1) * PageSize params ∧
  0 ≤ CalculateOffset params ∧
  (Page params = 1 → CalculateOffset params = 0) ∧
  (Page params * PageSize params < 2 ^ 63 →
   CalculateOffset (mkParams (Page params + 1) (PageSize params))
   = CalculateOffset params + PageSize params).
Proof.
  intros Hp Hs Hb. unfold CalculateOffset. cbn [Page PageSize].
  assert (H0 : 0 ≤ (Page params - 1) * PageSize params) by nia.
  rewrite (wrap64_small (Page params - 1)) by lia.
  rewrite (wrap64_small ((Page params - 1) * PageSize params)) by lia.
  repeat split; try done.
  - intros ->. lia.
  - intros Hn. replace (Page params + 1 - 1) with (Page params) by lia.
    rewrite (wrap64_small (Page params)) by lia.
    rewrite (wrap64_small (Page params * PageSize params)) by nia. lia.
Qed.

Lemma CalculateOffset_in_range_witness :
  let params := mkParams 3 20 in
  CalculateOffset params = 40 ∧
  CalculateOffset (mkParams 4 20) = CalculateOffset params + 20.
Proof.
  cbn zeta.
  destruct (CalculateOffset_in_range (mkParams 3 20)) as (H1 & _ & _ & H2);
    cbn; try lia.
  split; [exact H1|]. apply H2. cbn. lia.
Defined.

(** ** The store adapter *)

Lemma insert_desc_Permutation u l :
  BigQueryRepository.insert_desc u l ≡ₚ u :: l.
Proof.
  induction l as [|v l IH]; cbn; [done|].
  destruct (entity.CreatedAt v <? entity.CreatedAt u); [done|].
  rewrite IH. apply Permutation_swap.
Qed.

Lemma order_by_Permutation l :
  BigQueryRepository.order_by_created_at_desc l ≡ₚ l.
Proof.
  unfold BigQueryRepository.order_by_created_at_desc.
  induction l as [|u l IH]; cbn; [done|].
  by rewrite insert_desc_Permutation, IH.
Qed.

Lemma insert_desc_descending u l :
  descending l → descending (BigQueryRepository.insert_desc u l).
Proof.
  induction l as [|v l IH]; cbn; [done|]. intros [Hv Hl].
  destruct (Z.ltb_spec (entity.CreatedAt v) (entity.CreatedAt u)); cbn.
  - split; [|done]. constructor; [unfold newest_first; lia|].
    eapply Forall_impl; [exact Hv|]. unfold newest_first. cbn. intros; lia.
  - split; [|by apply IH].
    rewrite insert_desc_Permutation. constructor; [|done].
    unfold newest_first. lia.
Qed.

Lemma order_by_descending l :
  descending (BigQueryRepository.order_by_created_at_desc l).
Proof.
  unfold BigQueryRepository.order_by_created_at_desc.
  induction l as [|u l IH]; cbn; [done|]. by apply insert_desc_descending.
Qed.

Lemma descending_drop n l : descending l → descending (drop n l).
Proof.
  revert l. induction n as [|n IH]; intros [|u l]; cbn; try done.
  intros [_ Hl]. by apply IH.
Qed.

Lemma descending_take n l : descending l → descending (take n l).
Proof.
  revert l. induction n as [|n IH]; intros [|u l]; cbn; try done.
  intros [Hu Hl]. split; [|by apply IH]. by apply Forall_take.
Qed.

Lemma CalculateOffset_first_page params :
  Page params = 1 → CalculateOffset params = 0.
Proof. unfold CalculateOffset. intros ->. reflexivity. Qed.

(** X3.  A page the store adapter's [GetAll] returns holds at most
    [PageSize] rows of the normalised parameters, every one of them a row of
    the table, newest first; the first page of a table with at most
    [PageSize] rows holds all its rows; the table is left as it was. *)
Theorem store_GetAll_page (params : PaginationParams) (w : World)
    (rows : list entity.User) :
  fst (BigQueryRepository.GetAll params w) = (rows, None) →
  let n := normalize params in
  (length rows ≤ Z.to_nat (PageSize n))%nat ∧
  Forall (λ u, u ∈ bq_table w) rows ∧
  descending rows ∧
  (Page n = 1 → (length (bq_table w) ≤ Z.to_nat (PageSize n))%nat →
   rows ≡ₚ bq_table w) ∧
  bq_table (snd (BigQueryRepository.GetAll params w)) = bq_table w.
Proof.
  unfold_bq. unfold BigQueryRepository.select.
  destruct w as [tbl bqs db rs gs clk us tr]. unfold_M.
  cases_bq bqs; cbn; try done.
  all: intros ?; simplify_eq; repeat split; try done.
  all: try (rewrite length_take; lia).
  all: try (apply Forall_forall; intros u Hu;
            apply subseteq_take, subseteq_drop in Hu;
            by rewrite order_by_Permutation in Hu).
  all: try (apply descending_take, descending_drop, order_by_descending).
  all: intros Hp Hl; rewrite (CalculateOffset_first_page _ Hp); cbn [Z.to_nat drop];
       rewrite take_ge; [apply order_by_Permutation|];
       by rewrite order_by_Permutation.
Qed.

Lemma store_GetAll_page_witness :
  let older := entity.mkUser "u0" "Old" "old@example.org" 1 1 in
  let w := quiet [older; ann] ∅ in
  fst (BigQueryRepository.GetAll (mkParams 0 0) w) = ([ann; older], None) ∧
  descending [ann; older].
Proof.
  cbn zeta.
  assert (H : fst (BigQueryRepository.GetAll (mkParams 0 0)
                     (quiet [entity.mkUser "u0" "Old" "old@example.org" 1 1; ann] ∅))
              = ([ann; entity.mkUser "u0" "Old" "old@example.org" 1 1], None))
    by (vm_compute; reflexivity).
  split; [exact H|].
  exact (proj1 (proj2 (proj2 (store_GetAll_page _ _ _ H)))).
Defined.

Lemma store_GetByID_answered id w :
  store_answers w = true → is_empty id = false →
  fst (BigQueryRepository.GetByID id w) =
  match rows_of id w with
  | [] => (entity.zero, Some (Wrap ("user " +:+ id) ErrNotFound))
  | u :: _ => (u, None)
  end.
Proof.
  unfold store_answers, rows_of. unfold_bq.
  destruct w as [tbl bqs db rs gs clk us tr]. unfold_M. intros Ha ->. cbn in *.
  cases_bq bqs; try done; cbn.
  all: by destruct (BigQueryRepository.select _ tbl).
Qed.


Lemma rows_of_nil id w : rows_of id w = [] ↔ absent id w.
Proof. split; [apply select_absent | apply absent_select]. Qed.



(** The table after [Delete] of the store adapter. *)
Lemma store_Delete_table id w :
  bq_table (snd (BigQueryRepository.Delete id w)) =
  match fst (BigQueryRepository.Delete id w) with
  | None => BigQueryRepository.modify (DeleteByID id) (bq_table w)
  | Some _ => bq_table w
  end.
Proof.
  unfold_bq.
  destruct w as [tbl bqs db rs gs clk us tr]. unfold_M.
  destruct (is_empty id); cbn; [done|].
  destruct bqs as [|o1 bqs]; [|destruct o1; cases_bq bqs]; cbn; try done.
  all: destruct (BigQueryRepository.select _ tbl) as [|u l]; done.
Qed.

Lemma store_Delete_found id w :
  fst (BigQueryRepository.Delete id w) = None →
  is_empty id = false ∧ ¬ absent id w.
Proof.
  intros Hd. destruct (is_empty id) eqn:Hid.
  { revert Hd. unfold BigQueryRepository.Delete, ValidateID. by rewrite Hid. }
  split; [done|]. intros Ha. apply absent_select in Ha. revert Hd Ha.
  unfold_bq. rewrite Hid.
  destruct w as [tbl bqs db rs gs clk us tr]. unfold_M. cbn.
  destruct bqs as [|o1 bqs]; [|destruct o1; cases_bq bqs]; cbn; try done.
  all: intros Hd Ha; rewrite Ha in Hd; done.
Qed.

Lemma modify_delete_elem id rows u :
  u ∈ BigQueryRepository.modify (DeleteByID id) rows ↔ entity.ID u ≠ id ∧ u ∈ rows.
Proof. unfold BigQueryRepository.modify. by rewrite list_elem_of_filter. Qed.

(** X5.  A [Delete] of the store adapter that succeeds found a row with the
    identifier and removes every row that carries it and no other: the rows
    left are the other rows, in their order, and a [GetByID] of the
    identifier that the warehouse answers then reports [ErrNotFound]. *)
Theorem store_Delete_removes_exactly (id : string) (w : World) :
  fst (BigQueryRepository.Delete id w) = None →
  let w' := snd (BigQueryRepository.Delete id w) in
  ¬ absent id w ∧
  absent id w' ∧
  (∀ u, u ∈ bq_table w' ↔ entity.ID u ≠ id ∧ u ∈ bq_table w) ∧
  bq_table w' `sublist_of` bq_table w ∧
  (store_answers w' = true →
   ∃ e, fst (BigQueryRepository.GetByID id w') = (entity.zero, Some e) ∧
        errors_Is e ErrNotFound = true).
Proof.
  intros Hd w'. destruct (store_Delete_found id w Hd) as [Hid Hex].
  assert (Ht : bq_table w' = BigQueryRepository.modify (DeleteByID id) (bq_table w)).
  { unfold w'. by rewrite store_Delete_table, Hd. }
  assert (Habs : absent id w').
  { unfold absent. rewrite Ht. apply Forall_forall. intros u Hu.
    by apply modify_delete_elem in Hu as [? _]. }
  split; [done|]. split; [done|]. split; [|split].
  - intros u. rewrite Ht. apply modify_delete_elem.
  - rewrite Ht. unfold BigQueryRepository.modify. apply sublist_filter.
  - intros Ha. rewrite (store_GetByID_answered id w' Ha Hid).
    apply rows_of_nil in Habs. rewrite Habs. eexists. split; [done|].
    by rewrite errors_Is_Wrap_NotFound, errors_Is_refl.
Qed.

Lemma store_Delete_removes_exactly_witness :
  let w := quiet [blank; ann] ∅ in
  fst (BigQueryRepository.Delete "u1" w) = None ∧
  bq_table (snd (BigQueryRepository.Delete "u1" w)) = [blank] ∧
  absent "u1" (snd (BigQueryRepository.Delete "u1" w)).
Proof.
  cbn zeta.
  assert (H : fst (BigQueryRepository.Delete "u1" (quiet [blank; ann] ∅)) = None)
    by (vm_compute; reflexivity).
  split; [exact H|]. split; [vm_compute; reflexivity|].
  exact (proj1 (proj2 (store_Delete_removes_exactly "u1" _ H))).
Defined.





(** ** The cache layer: what reads and writes leave alone *)

(** X7.  The reads of the cache layer change neither backend: after
    [GetByID] and after [GetAll] the table and the Redis keyspace are what
    they were, every statement sent is a [SELECT], every Redis command a
    [GET], and at most one goroutine was started. *)
Theorem reads_change_no_backend (ttl : Z) (w : World) (id : string)
    (params : PaginationParams) :
  let r := main.cacheRepo ttl in
  let w1 := snd (RedisRepository.GetByID r id w) in
  let w2 := snd (RedisRepository.GetAll r params w) in
  (bq_table w1 = bq_table w ∧ redis_db w1 = redis_db w ∧
   forallb is_read (new_events (RedisRepository.GetByID r id) w) = true ∧
   (length (new_goroutines (RedisRepository.GetByID r id) w) ≤ 1)%nat) ∧
  (bq_table w2 = bq_table w ∧ redis_db w2 = redis_db w ∧
   forallb is_read (new_events (RedisRepository.GetAll r params) w) = true ∧
   (length (new_goroutines (RedisRepository.GetAll r params) w) ≤ 1)%nat).
Proof.
  cbn zeta. unfold new_goroutines. split.
  - wired. destruct w as [tbl bqs db rs gs clk us tr]. unfold_M.
    destruct (is_empty id); cbn; read_trace.
    { rewrite !drop_all. repeat split; cbn; lia. }
    cases_redis rs; cbn;
      try (destruct (db !! _) as [[]|]; cbn);
      try (cases_bq bqs; cbn);
      try (destruct (BigQueryRepository.select _ tbl) as [|u0 l0]; cbn);
      read_trace.
    all: rewrite ?drop_app_length, ?drop_all; repeat split; cbn; lia.
  - wired. destruct w as [tbl bqs db rs gs clk us tr]. unfold_M.
    cbn [bq_table bq_script redis_db redis_script goroutines clock uuids trace].
    cases_redis rs; cbn;
      try (destruct (db !! _) as [[]|]; cbn);
      try (cases_bq bqs; cbn); read_trace.
    all: rewrite ?drop_app_length, ?drop_all; repeat split; cbn; lia.
Qed.

(** X8.  The writes of the cache layer never put a value into the cache:
    after [Create], [Update] and [Delete] every key Redis holds was there
    before with the same value, no [SET] was sent and no goroutine was
    started. *)
Theorem writes_only_remove_cache_entries (ttl : Z) (w : World)
    (user : entity.User) (id : string) :
  let r := main.cacheRepo ttl in
  let leaves (op : M (option error)) :=
    redis_db (snd (op w)) ⊆ redis_db w ∧
    goroutines (snd (op w)) = goroutines w ∧
    forallb is_not_SET (new_events op w) = true in
  leaves (RedisRepository.Create r user) ∧
  leaves (RedisRepository.Update r user) ∧
  leaves (RedisRepository.Delete r id).
Proof.
  cbn zeta. repeat split.
  all: wired; destruct w as [tbl bqs db rs gs clk us tr]; unfold_M.
  all: try (destruct (is_empty _); cbn; read_trace; [by rewrite ?drop_all|]).
  all: (destruct bqs as [|o1 bqs]; [|destruct o1; cases_bq bqs]); cbn; read_trace;
       try done.
  all: try (destruct (BigQueryRepository.select _ tbl) as [|u l]; cbn; read_trace;
            try done).
  all: cases_redis rs; cbn; read_trace; try done.
  all: etrans; apply delete_subseteq.
Qed.

(** ** The cache layer: operations in sequence *)








Lemma GetAll_world r params w :
  snd (RedisRepository.GetAll r params w) =
  let n := normalize params in
  let key := RedisRepository.generateListKey n in
  let w0 := snd (emit (EvValidatePagination CacheLayer params) w) in
  match cached_users w key with
  | Some _ => after_redis [GET key] w0
  | None =>
      let res := UserRepository.GetAll (RedisRepository.repository r) n
                   (after_redis [GET key] w0) in
      match snd (fst res) with
      | Some _ => snd res
      | None => snd (go (CacheUsers key (fst (fst res))) (snd res))
      end
  end.
Proof.
  cbn zeta.
  set (n := normalize params). set (key := RedisRepository.generateListKey n).
  set (w0 := snd (emit (EvValidatePagination CacheLayer params) w)).
  unfold RedisRepository.GetAll, ValidatePagination.
  unfold mbind at 1 2, M_bind at 1 2.
  change ((emit (EvValidatePagination CacheLayer params)
           ≫= λ _ : (), mret (normalize params)) w) with (n, w0).
  cbn iota beta. fold key.
  assert (Hcu : cached_users w0 key = cached_users w key) by (by destruct w).
  pose proof (cacheGet_world r key [] w0) as Hw.
  rewrite <- Hcu.
  destruct (cached_users w0 key) as [l|] eqn:Hc.
  - pose proof (cacheGet_users_hit r _ w0 l Hc) as Hh.
    destruct (RedisRepository.cacheGet _ _ _ w0) as [[u' e'] w1]. cbn in *.
    by simplify_eq.
  - destruct (cacheGet_users_miss r _ w0 Hc) as [e Hm].
    destruct (RedisRepository.cacheGet _ _ _ w0) as [[u' e'] w1]. cbn in *.
    simplify_eq. unfold_M.
    destruct (UserRepository.GetAll _ _ _) as [[u2 [e2|]] w2]; done.
Qed.

Lemma store_GetAll_frame params w :
  let w' := snd (BigQueryRepository.GetAll params w) in
  bq_table w' = bq_table w ∧ redis_db w' = redis_db w ∧
  redis_script w' = redis_script w ∧ goroutines w' = goroutines w.
Proof.
  unfold_bq. destruct w as [tbl bqs db rs gs clk us tr]. unfold_M.
  cases_bq bqs; done.
Qed.

(** A goroutine of [GetAll] that runs while Redis answers stores the page,
    and the page reads back as it was. *)
Lemma schedule_CacheUsers r i w key l :
  goroutines w !! i = Some (CacheUsers key l) →
  redis_answers w = true →
  let w' := snd (RedisRepository.schedule r i w) in
  (redis_answers w' = true → cached_users w' key = Some l).
Proof.
  unfold RedisRepository.schedule, RedisRepository.run_task, redis_answers,
    cached_users, redis_answers.
  intros -> Hans. unfold_redis.
  destruct w as [tbl bqs db rs gs clk us tr]. unfold_M. cbn in *.
  cases_redis rs; try done; cbn.
  all: intros Hr; rewrite ?Hr, lookup_insert_eq; by destruct l.
Qed.

Lemma cached_users_None w key :
  redis_db w !! key = None → cached_users w key = None.
Proof. unfold cached_users. intros ->. by destruct (redis_answers w). Qed.

(** X11.  The cache holds nothing under the list key of [params] and a
    first [GetAll] returns the page [l] from the store, an empty page
    included.  Once the goroutine that call started has run with Redis
    answering, a [GetAll], its cache read answered, with any parameters that
    normalise to the same values returns the same page and sends no
    statement to the store. *)
Theorem GetAll_miss_then_hit (ttl : Z) (w : World) (params : PaginationParams)
    (l : list entity.User) :
  let r := main.cacheRepo ttl in
  let key := RedisRepository.generateListKey (normalize params) in
  let w1 := snd (RedisRepository.GetAll r params w) in
  let w2 := snd (RedisRepository.schedule r (length (goroutines w)) w1) in
  redis_db w !! key = None →
  fst (RedisRepository.GetAll r params w) = (l, None) →
  redis_answers w1 = true →
  redis_answers w2 = true →
  ∀ params', normalize params' = normalize params →
    fst (RedisRepository.GetAll r params' w2) = (l, None) ∧
    store_calls (new_events (RedisRepository.GetAll r params') w2) = 0%nat.
Proof.
  intros r key w1 w2 Hempty Hfirst Hset Hread params' Hsame.
  pose proof (cached_users_None w key Hempty) as Hmiss.
  rewrite GetAll_result in Hfirst. cbn zeta in Hfirst. fold key in Hfirst.
  rewrite Hmiss in Hfirst.
  assert (Hw1 := GetAll_world r params w). cbn zeta in Hw1. fold w1 key in Hw1.
  rewrite Hmiss in Hw1.
  cbn [RedisRepository.repository r main.cacheRepo
       RedisRepository.NewRedisRepository main.primaryRepo
       UserRepository.GetAll BigQueryRepository.NewBigQueryRepository]
    in Hfirst, Hw1.
  set (wg := after_redis [GET key]
               (snd (emit (EvValidatePagination CacheLayer params) w))) in *.
  destruct (store_GetAll_frame (normalize params) wg) as (_ & _ & _ & Hgs).
  destruct (BigQueryRepository.GetAll (normalize params) wg)
    as [[l0 [e|]] wB]; cbn in Hfirst, Hw1, Hgs; [done|].
  unfold through in Hfirst. cbn in Hfirst. injection Hfirst as ->.
  assert (Htask : goroutines w1 !! length (goroutines w) = Some (CacheUsers key l)).
  { rewrite Hw1. cbn. rewrite Hgs. subst wg. cbn. by apply list_lookup_middle. }
  pose proof (schedule_CacheUsers r _ w1 key l Htask Hset Hread) as Hhit.
  fold w2 in Hhit.
  split.
  - rewrite GetAll_result. cbn zeta. rewrite Hsame. fold key. by rewrite Hhit.
  - unfold new_events. rewrite GetAll_world. cbn zeta. rewrite Hsame. fold key.
    rewrite Hhit. cbn. rewrite <- app_assoc. by rewrite drop_app_length.
Qed.

Lemma GetAll_miss_then_hit_witness :
  let r := main.cacheRepo 300 in
  let w := quiet [] ∅ in
  let w1 := snd (RedisRepository.GetAll r (mkParams 1 10) w) in
  let w2 := snd (RedisRepository.schedule r (length (goroutines w)) w1) in
  fst (RedisRepository.GetAll r (mkParams 1 10) w) = ([], None) ∧
  fst (RedisRepository.GetAll r (mkParams 0 0) w2) = ([], None) ∧
  store_calls (new_events (RedisRepository.GetAll r (mkParams 0 0)) w2) = 0%nat.
Proof.
  cbn zeta. split; [vm_compute; reflexivity|].
  apply (GetAll_miss_then_hit 300 (quiet [] ∅) (mkParams 1 10) []).
  - vm_compute. reflexivity.
  - vm_compute. reflexivity.
  - vm_compute. reflexivity.
  - vm_compute. reflexivity.
  - vm_compute. reflexivity.
Defined.


(** ** Cache keys of list pages *)

Lemma pretty_N_char_free x : pretty_N_char x ≠ colon.
Proof. unfold pretty_N_char, colon. repeat case_match; discriminate. Qed.

Lemma pretty_N_go_free x s : free_of colon s → free_of colon (pretty_N_go x s).
Proof.
  revert s. induction (N.lt_wf_0 x) as [x _ IH]; intros s Hs.
  destruct (decide (x = 0%N)) as [->|Hx]; [by rewrite pretty_N_go_0|].
  rewrite pretty_N_go_step by lia. apply IH.
  - apply N.div_lt; lia.
  - split; [apply pretty_N_char_free | done].
Qed.

Lemma pretty_Z_free (z : Z) : free_of colon (pretty z).
Proof.
  assert (HN : ∀ n : N, free_of colon (pretty n)).
  { intros n. unfold pretty, pretty_N. case_decide.
    - split; [discriminate | done].
    - by apply pretty_N_go_free. }
  destruct z as [|p|p]; unfold pretty, pretty_Z.
  - split; [discriminate | done].
  - apply HN.
  - split; [discriminate | apply HN].
Qed.

Lemma split_at_colon a a' r r' :
  free_of colon a → free_of colon a' →
  a +:+ String colon r = a' +:+ String colon r' → a = a' ∧ r = r'.
Proof.
  revert a'. induction a as [|c a IH]; intros [|c' a']; cbn.
  - intros _ _ ?. by simplify_eq.
  - intros _ [Hc _] ?. by simplify_eq.
  - intros [Hc _] _ ?. by simplify_eq.
  - intros [_ Ha] [_ Ha'] ?. simplify_eq.
    destruct (IH a' Ha Ha') as [-> ->]; done.
Qed.

(** X13.  Two pagination parameters have the same list key exactly when
    they are equal, so two [GetAll] calls read the same cache entry exactly
    when their normalised parameters coincide; two identifiers have the same
    record key exactly when they are equal. *)
Theorem cache_keys_are_injective (params1 params2 : PaginationParams)
    (id1 id2 : string) :
  (RedisRepository.generateListKey params1 = RedisRepository.generateListKey params2
   ↔ params1 = params2) ∧
  (RedisRepository.generateListKey (normalize params1)
   = RedisRepository.generateListKey (normalize params2)
   ↔ normalize params1 = normalize params2) ∧
  (RedisRepository.generateKey id1 = RedisRepository.generateKey id2 ↔ id1 = id2).
Proof.
  assert (Hinj : ∀ p1 p2, RedisRepository.generateListKey p1
                          = RedisRepository.generateListKey p2 → p1 = p2).
  { intros [page1 size1] [page2 size2].
    unfold RedisRepository.generateListKey, RedisRepository.userListKeyPrefix,
      RedisRepository.pageKeyFormat. cbn [Page PageSize].
    intros H. cbn in H. simplify_eq.
    change (pretty page1 +:+ String colon ("size_" +:+ pretty size1)
            = pretty page2 +:+ String colon ("size_" +:+ pretty size2)) in H.
    apply split_at_colon in H as [Hp Hs]; try apply pretty_Z_free.
    cbn in Hs. by simplify_eq. }
  repeat split; try (intros ->; done); try apply Hinj.
  apply generateKey_inj.
Qed.

(** ** The use case *)

Lemma is_empty_true s : is_empty s = true ↔ s = "".
Proof. by destruct s. Qed.

Lemma is_empty_false s : is_empty s = false ↔ s ≠ "".
Proof. by destruct s. Qed.

Lemma validateUser_spec (user : entity.User) (isCreate : bool) :
  (usecase.validateUser user isCreate = None ↔
   (isCreate = true ∨ entity.ID user ≠ "") ∧
   entity.Name user ≠ "" ∧ entity.Email user ≠ "") ∧
  (∀ e, usecase.validateUser user isCreate = Some e →
        errors_Is e ErrValidation = true ∧
        errors_Is e ErrUserNotFound = false ∧
        errors_Is e ErrNotFound = false).
Proof.
  unfold usecase.validateUser.
  destruct user as [id name email c u]. cbn [entity.ID entity.Name entity.Email].
  destruct isCreate, id as [|? ?], name as [|? ?], email as [|? ?]; cbn.
  all: split; [split; [try done; intros _; repeat split; try done; by (left + right)
                      | try done; intros [[?|?] [? ?]]; done]
              | intros e ?; simplify_eq; try done; by vm_compute].
Qed.

(** X14.  [validateUser] accepts a user exactly when the name and the e-mail
    are not empty and, for an update, the identifier is not empty either;
    every error it returns is a validation error ([errors.Is] finds
    [ErrValidation] in it, and neither of the two not-found sentinels). *)
Theorem validateUser_accepts (user : entity.User) (isCreate : bool) :
  (usecase.validateUser user isCreate = None ↔
   (isCreate = true ∨ entity.ID user ≠ "") ∧
   entity.Name user ≠ "" ∧ entity.Email user ≠ "") ∧
  (∀ e, usecase.validateUser user isCreate = Some e →
        errors_Is e ErrValidation = true ∧
        errors_Is e ErrUserNotFound = false ∧
        errors_Is e ErrNotFound = false).
Proof. apply validateUser_spec. Qed.

Lemma errors_Is_Wrap_ne msg e target :
  (∀ m c, target ≠ Wrap m c) →
  errors_Is (Wrap msg e) target = errors_Is e target.
Proof. intros H. cbn. by rewrite bool_decide_eq_false_2. Qed.

(** The errors of the store adapter's reads of a page and of its insert are
    errors of the BigQuery client. *)
Lemma store_GetAll_error params w e :
  snd (fst (BigQueryRepository.GetAll params w)) = Some e →
  ∃ msg m, e = Wrap msg (External m).
Proof.
  unfold_bq. destruct w as [tbl bqs db rs gs clk us tr]. unfold_M.
  cases_bq bqs; cbn; try done; intros ?; simplify_eq; eauto.
Qed.

Lemma store_Create_error user w e :
  fst (BigQueryRepository.Create user w) = Some e →
  ∃ msg m, e = Wrap msg (External m).
Proof.
  unfold_bq. destruct w as [tbl bqs db rs gs clk us tr]. unfold_M.
  cases_bq bqs; cbn; try done; intros ?; simplify_eq; eauto.
Qed.

(** X15.  [repository.ErrNotFound] never leaves the use case.  Over any
    repository, an error of [GetUserByID], [UpdateUser] or [DeleteUser] is
    never found to be [ErrNotFound] by [errors.Is]: the repository's
    [ErrNotFound] is replaced by [ErrUserNotFound].  Over the cache layer on
    the BigQuery adapter the same holds for [CreateUser] and
    [GetAllUsers], whose repository errors come from the BigQuery client. *)
Theorem use_case_reports_no_repository_NotFound (ttl : Z) (w : World)
    (user : entity.User) (id : string) (page pageSize : Z) :
  let uc := main.userUseCase ttl in
  let clean (err : option error) :=
    match err with
    | Some e => errors_Is e ErrNotFound = false
    | None => True
    end in
  (∀ uc', clean (snd (fst (usecase.GetUserByID uc' id w))) ∧
          clean (snd (fst (usecase.UpdateUser uc' user w))) ∧
          clean (fst (usecase.DeleteUser uc' id w))) ∧
  clean (snd (fst (usecase.CreateUser uc user w))) ∧
  clean (snd (fst (usecase.GetAllUsers uc page pageSize w))).
Proof.
  cbn zeta. split; [intros uc'; repeat split|split].
  - unfold usecase.GetUserByID. destruct (is_empty id); [by vm_compute|].
    rewrite bind_run.
    destruct (UserRepository.GetByID _ id w) as [[u [e|]] w1]; cbn [fst snd]; [|done].
    unfold_M. destruct (errors_Is e ErrNotFound) eqn:He; cbn [fst snd]; [done|].
    by rewrite errors_Is_Wrap_NotFound.
  - unfold usecase.UpdateUser.
    destruct (usecase.validateUser user false) as [e|] eqn:Hv.
    { unfold_M. cbn [fst snd]. by apply validateUser_spec in Hv as (_ & _ & ?). }
    rewrite !bind_run. cbn [fst snd].
    destruct (UserRepository.Update _ _ _) as [[e|] w1]; cbn [fst snd]; [|done].
    unfold_M. destruct (errors_Is e ErrNotFound) eqn:He; cbn [fst snd]; [done|].
    by rewrite errors_Is_Wrap_NotFound.
  - unfold usecase.DeleteUser. destruct (is_empty id); [by vm_compute|].
    rewrite bind_run.
    destruct (UserRepository.Delete _ id w) as [[e|] w1]; cbn [fst snd]; [|done].
    unfold_M. destruct (errors_Is e ErrNotFound) eqn:He; cbn [fst snd]; [done|].
    by rewrite errors_Is_Wrap_NotFound.
  - unfold usecase.CreateUser.
    destruct (usecase.validateUser user true) as [e|] eqn:Hv.
    { unfold_M. cbn [fst snd]. by apply validateUser_spec in Hv as (_ & _ & ?). }
    rewrite !bind_run.
    set (row := entity.mkUser _ _ _ _ _). set (w0 := snd (_ w)).
    unfold main.userUseCase, usecase.NewUserUseCase.
    cbn [usecase.cacheRepo RedisRepository.as_UserRepository UserRepository.Create].
    pose proof (Create_run (main.cacheRepo ttl) row (snd (time_Now w0))) as [Hc _].
    cbn [main.cacheRepo RedisRepository.NewRedisRepository main.primaryRepo
         RedisRepository.repository BigQueryRepository.NewBigQueryRepository
         UserRepository.Create] in Hc.
    destruct (fst (RedisRepository.Create _ row _)) as [e|] eqn:Hr;
      cbn [fst snd]; unfold_M; cbn [fst snd]; [|done].
    apply eq_sym, wrapped_Some in Hc as (e' & He' & ->).
    apply store_Create_error in He' as (msg & m & ->).
    by rewrite !errors_Is_Wrap_NotFound, errors_Is_External_NotFound.
  - unfold usecase.GetAllUsers. rewrite bind_run.
    unfold main.userUseCase, usecase.NewUserUseCase.
    cbn [usecase.cacheRepo RedisRepository.as_UserRepository UserRepository.GetAll].
    set (params := mkParams _ _).
    pose proof (GetAll_result (main.cacheRepo ttl) params w) as Hall.
    cbn zeta in Hall.
    cbn [main.cacheRepo RedisRepository.NewRedisRepository main.primaryRepo
         RedisRepository.repository BigQueryRepository.NewBigQueryRepository
         UserRepository.GetAll] in Hall.
    assert (Hclean : ∀ e,
      snd (fst (RedisRepository.GetAll (main.cacheRepo ttl) params w)) = Some e →
      ∃ msg' msg m, e = Wrap msg' (Wrap msg (External m))).
    { intros e He. rewrite Hall in He. destruct (cached_users w _); [done|].
      apply through_Some in He as (e' & He' & ->).
      apply store_GetAll_error in He' as (msg & m & ->). eauto. }
    clear Hall.
    destruct (RedisRepository.GetAll _ params w) as [[l [e|]] w1];
      cbn [fst snd] in *; unfold mret, M_ret; cbn [fst snd]; [|done].
    destruct (Hclean e eq_refl) as (msg' & msg & m & ->).
    by rewrite !errors_Is_Wrap_NotFound, errors_Is_External_NotFound.
Qed.

(** ** The HTTP handlers *)

Lemma Update_absent ttl user w :
  absent (entity.ID user) w → store_answers w = true →
  ∃ e, RedisRepository.Update (main.cacheRepo ttl) user w
       = (Some e, snd (RedisRepository.Update (main.cacheRepo ttl) user w)) ∧
       errors_Is e ErrNotFound = true ∧
       bq_table (snd (RedisRepository.Update (main.cacheRepo ttl) user w))
       = bq_table w.
Proof.
  intros Ha. apply absent_select in Ha. revert Ha.
  wired. unfold store_answers.
  destruct w as [tbl bqs db rs gs clk us tr]. unfold_M.
  destruct (is_empty (entity.ID user)); cbn; [by eauto|].
  intros Ha.
  cases_bq bqs; cbn; rewrite ?Ha; cbn; try done; eauto.
Qed.

Lemma Delete_absent_run ttl id w :
  absent id w → store_answers w = true →
  ∃ e, RedisRepository.Delete (main.cacheRepo ttl) id w
       = (Some e, snd (RedisRepository.Delete (main.cacheRepo ttl) id w)) ∧
       errors_Is e ErrNotFound = true ∧
       bq_table (snd (RedisRepository.Delete (main.cacheRepo ttl) id w))
       = bq_table w.
Proof.
  intros Ha Hs. destruct (Delete_absent ttl id w Ha) as (e & He & _ & Ht & Hn).
  exists e. repeat split; [|by apply Hn|done].
  destruct (RedisRepository.Delete _ id w) as [o w1]. cbn in *. by subst.
Qed.

(** X16.  The warehouse answers and no row carries the non-empty identifier
    [id].  [DeleteUser] and, for a body with a name and an e-mail,
    [UpdateUser] of the HTTP handler answer 404 [NOT_FOUND] and leave the
    table as it was; [GetUser] answers the same when the cache read finds
    nothing it can use. *)
Theorem absent_user_is_answered_404 (ttl : Z) (w : World) (id : string)
    (body : entity.User) :
  let h := http.handler ttl in
  absent id w →
  is_empty id = false →
  store_answers w = true →
  (cached_user w (RedisRepository.generateKey id) = None →
   fst (http.GetUser h id w) = not_found_response) ∧
  (fst (http.DeleteUser h id w) = not_found_response ∧
   bq_table (snd (http.DeleteUser h id w)) = bq_table w) ∧
  (is_empty (entity.Name body) = false → is_empty (entity.Email body) = false →
   fst (http.UpdateUser h id (Some body) w) = not_found_response ∧
   bq_table (snd (http.UpdateUser h id (Some body) w)) = bq_table w).
Proof.
  intros h Ha Hid Hs. unfold h, http.handler, http.NewUserHandler.
  split; [|split; [split|intros Hname Hmail; split]].
  - intros Hc. unfold http.GetUser. cbn [http.userUseCase]. rewrite bind_run.
    unfold usecase.GetUserByID. rewrite Hid, bind_run.
    unfold main.userUseCase, usecase.NewUserUseCase.
    cbn [usecase.cacheRepo RedisRepository.as_UserRepository UserRepository.GetByID].
    pose proof (GetByID_result (main.cacheRepo ttl) id w) as Hg.
    rewrite Hid, Hc in Hg.
    cbn [main.cacheRepo RedisRepository.NewRedisRepository main.primaryRepo
         RedisRepository.repository BigQueryRepository.NewBigQueryRepository
         UserRepository.GetByID] in Hg.
    rewrite store_GetByID_answered in Hg by done.
    assert (Hr : rows_of id (after_redis [GET (RedisRepository.generateKey id)] w) = [])
      by by apply rows_of_nil.
    rewrite Hr in Hg. unfold through in Hg. cbn [fst snd] in Hg.
    destruct (RedisRepository.GetByID _ id w) as [res w1]. cbn [fst snd] in *.
    subst res. by vm_compute.
  - unfold http.DeleteUser. cbn [http.userUseCase]. rewrite bind_run.
    unfold usecase.DeleteUser. rewrite Hid, bind_run.
    unfold main.userUseCase, usecase.NewUserUseCase.
    cbn [usecase.cacheRepo RedisRepository.as_UserRepository UserRepository.Delete].
    destruct (Delete_absent_run ttl id w Ha Hs) as (e & -> & Hn & _).
    cbn [fst snd]. rewrite Hn. by vm_compute.
  - unfold http.DeleteUser. cbn [http.userUseCase]. rewrite bind_run.
    unfold usecase.DeleteUser. rewrite Hid, bind_run.
    unfold main.userUseCase, usecase.NewUserUseCase.
    cbn [usecase.cacheRepo RedisRepository.as_UserRepository UserRepository.Delete].
    destruct (Delete_absent_run ttl id w Ha Hs) as (e & -> & Hn & Ht).
    cbn [fst snd]. rewrite Hn. unfold_M. cbn [fst snd]. exact Ht.
  - unfold http.UpdateUser. cbn [http.userUseCase].
    rewrite bind_run. unfold usecase.UpdateUser, usecase.validateUser.
    cbn [entity.ID entity.Name entity.Email negb andb]. rewrite Hid, Hname, Hmail.
    cbn [andb]. rewrite !bind_run.
    unfold main.userUseCase, usecase.NewUserUseCase.
    cbn [usecase.cacheRepo RedisRepository.as_UserRepository UserRepository.Update].
    set (row := entity.mkUser id _ _ _ _).
    destruct (Update_absent ttl row (snd (time_Now w)) Ha Hs) as (e & -> & Hn & _).
    cbn [fst snd]. rewrite Hn. by vm_compute.
  - unfold http.UpdateUser. cbn [http.userUseCase].
    rewrite bind_run. unfold usecase.UpdateUser, usecase.validateUser.
    cbn [entity.ID entity.Name entity.Email negb andb]. rewrite Hid, Hname, Hmail.
    cbn [andb]. rewrite !bind_run.
    unfold main.userUseCase, usecase.NewUserUseCase.
    cbn [usecase.cacheRepo RedisRepository.as_UserRepository UserRepository.Update].
    set (row := entity.mkUser id _ _ _ _).
    destruct (Update_absent ttl row (snd (time_Now w)) Ha Hs) as (e & -> & Hn & Ht).
    cbn [fst snd]. rewrite Hn. unfold_M. cbn [fst snd]. exact Ht.
Qed.

Lemma absent_user_is_answered_404_witness :
  let h := http.handler 300 in
  absent "u2" cached_world ∧
  fst (http.GetUser h "u2" cached_world) = not_found_response ∧
  fst (http.DeleteUser h "u2" cached_world) = not_found_response.
Proof.
  cbn zeta.
  assert (Ha : absent "u2" cached_world).
  { unfold absent. cbn. repeat constructor. discriminate. }
  split; [exact Ha|].
  destruct (absent_user_is_answered_404 300 cached_world "u2" ann Ha eq_refl eq_refl)
    as (Hg & [Hd _] & _).
  split; [|exact Hd]. apply Hg. vm_compute. reflexivity.
Defined.

Lemma GetAll_error_shape ttl params w e :
  snd (fst (RedisRepository.GetAll (main.cacheRepo ttl) params w)) = Some e →
  ∃ msg' msg m, e = Wrap msg' (Wrap msg (External m)).
Proof.
  intros He. rewrite GetAll_result in He. cbn zeta in He.
  destruct (cached_users w _); [done|].
  apply through_Some in He as (e' & He' & ->).
  cbn [main.cacheRepo RedisRepository.NewRedisRepository main.primaryRepo
       RedisRepository.repository BigQueryRepository.NewBigQueryRepository
       UserRepository.GetAll] in He'.
  apply store_GetAll_error in He' as (msg & m & ->). eauto.
Qed.

Lemma query_number_positive text default : 1 ≤ default → 1 ≤ query_number text default.
Proof.
  intros Hd. unfold query_number. destruct (strconv_Atoi text) as [n [e|]]; [done|].
  destruct (Z.ltb_spec 0 n); lia.
Qed.

(** X17.  [GetUsers] rejects no query string: a [page] or [pageSize] that is
    missing, not a decimal integer, or not positive is replaced by 1 and 10,
    a positive integer is taken as it is.  The handler answers 200 with the
    users of the use case and these two numbers, or 500
    [INTERNAL_ERROR] when the use case fails; never 400 or 404. *)
Theorem GetUsers_never_rejects (ttl : Z) (pageStr sizeStr : string) (w : World) :
  let h := http.handler ttl in
  let page := query_number pageStr 1 in
  let size := query_number sizeStr 10 in
  let run := usecase.GetAllUsers (main.userUseCase ttl) page size w in
  (1 ≤ page ∧ 1 ≤ size) ∧
  http.GetUsers h pageStr sizeStr w =
  (match snd (fst run) with
   | Some _ => internal_error_response
   | None => (http.StatusOK, http.BodyPage (fst (fst run)) page size)
   end, snd run).
Proof.
  cbn zeta. split; [split; by apply query_number_positive|].
  unfold http.GetUsers, http.handler, http.NewUserHandler. cbn [http.userUseCase].
  assert (Hq : ∀ text default,
    (if negb (is_empty text)
     then let '(p, err) := strconv_Atoi text in
          match err with
          | Some _ => default
          | None => if p >? 0 then p else default
          end
     else default) = query_number text default).
  { intros text default. unfold query_number. destruct text as [|c text]; [done|].
    cbn [is_empty negb]. destruct (strconv_Atoi _) as [p [e|]]; [done|].
    by rewrite Z.gtb_ltb. }
  rewrite !Hq. rewrite bind_run.
  set (page := query_number pageStr 1). set (size := query_number sizeStr 10).
  assert (Hshape : ∀ e,
    snd (fst (usecase.GetAllUsers (main.userUseCase ttl) page size w)) = Some e →
    http.handleError e = internal_error_response).
  { intros e. unfold usecase.GetAllUsers. rewrite bind_run.
    unfold main.userUseCase, usecase.NewUserUseCase.
    cbn [usecase.cacheRepo RedisRepository.as_UserRepository UserRepository.GetAll].
    pose proof (GetAll_error_shape ttl (mkParams (usecase.max page 1)
                                          (usecase.max size 10)) w) as Hs.
    destruct (RedisRepository.GetAll _ _ w) as [[l [e'|]] w1];
      cbn [fst snd] in *; unfold mret, M_ret; cbn [fst snd]; [|done].
    intros ?. simplify_eq. destruct (Hs e' eq_refl) as (a & b & m & ->).
    by vm_compute. }
  destruct (usecase.GetAllUsers _ page size w) as [[users [e|]] w1];
    cbn [fst snd] in *; unfold mret, M_ret; [|done].
  by rewrite (Hshape e eq_refl).
Qed.

(** X18.  A request the handler or the use case finds invalid is answered
    400 [VALIDATION_ERROR] and changes nothing: a body that does not bind, a
    user [validateUser] rejects (for [UpdateUser] after the identifier of
    the path has replaced the one of the body), and an empty identifier in
    [GetUser] and [DeleteUser]. *)
Theorem invalid_requests_are_answered_400 (h : http.UserHandler) (w : World)
    (id : string) (body : entity.User) :
  let addressed := entity.mkUser id (entity.Name body) (entity.Email body)
                     (entity.CreatedAt body) (entity.UpdatedAt body) in
  http.CreateUser h None w = (http.invalid_payload, w) ∧
  http.UpdateUser h id None w = (http.invalid_payload, w) ∧
  (∀ e, usecase.validateUser body true = Some e →
        http.CreateUser h (Some body) w = (validation_response e, w)) ∧
  (∀ e, usecase.validateUser addressed false = Some e →
        http.UpdateUser h id (Some body) w = (validation_response e, w)) ∧
  http.GetUser h "" w
  = (validation_response (Wrap "id is required" ErrValidation), w) ∧
  http.DeleteUser h "" w
  = (validation_response (Wrap "id is required" ErrValidation), w).
Proof.
  assert (Hv : ∀ user isCreate e,
    usecase.validateUser user isCreate = Some e →
    http.handleError e = validation_response e).
  { intros user isCreate e He.
    apply validateUser_spec in He as (H1 & H2 & _).
    unfold http.handleError. by rewrite H2, H1. }
  cbn zeta. repeat split.
  - intros e He. unfold http.CreateUser. rewrite bind_run.
    unfold usecase.CreateUser. rewrite He. unfold_M. cbn [fst snd].
    by rewrite (Hv _ _ _ He).
  - intros e He. unfold http.UpdateUser. rewrite bind_run.
    unfold usecase.UpdateUser. rewrite He. unfold_M. cbn [fst snd].
    by rewrite (Hv _ _ _ He).
Qed.

Lemma invalid_requests_are_answered_400_witness :
  let body := entity.mkUser "ignored" "Ann" "" 0 0 in
  let e := Wrap "email is required" ErrValidation in
  http.UpdateUser (http.handler 300) "u1" (Some body) cached_world
  = (validation_response e, cached_world).
Proof.
  cbn zeta.
  destruct (invalid_requests_are_answered_400 (http.handler 300) cached_world "u1"
              (entity.mkUser "ignored" "Ann" "" 0 0)) as (_ & _ & _ & H & _).
  apply H. reflexivity.
Defined.

(** X19.  A cache hit is served as it is, for any wrapped repository: when
    Redis answers with text that decodes, [GetByID] of a non-empty identifier
    and [GetAll] return the cached value after the single [GET], without a
    call to the store and without starting a goroutine. *)
Theorem cache_hit_is_served_without_store (r : RedisRepository.t) (w : World)
    (id : string) (u : entity.User) (params : PaginationParams)
    (l : list entity.User) :
  let key := RedisRepository.generateKey id in
  let lkey := RedisRepository.generateListKey (normalize params) in
  (is_empty id = false → cached_user w key = Some u →
   RedisRepository.GetByID r id w = ((u, None), after_redis [GET key] w)) ∧
  (cached_users w lkey = Some l →
   RedisRepository.GetAll r params w
   = ((l, None),
      after_redis [GET lkey] (snd (emit (EvValidatePagination CacheLayer params) w)))).
Proof.
  cbn zeta. split.
  - intros Hid Hc.
    pose proof (GetByID_result r id w) as Hr.
    pose proof (GetByID_world r id w) as Hw. cbn zeta in Hw.
    rewrite Hid, Hc in Hr, Hw.
    destruct (RedisRepository.GetByID r id w) as [res w1]. cbn in *. by subst.
  - intros Hc.
    pose proof (GetAll_result r params w) as Hr.
    pose proof (GetAll_world r params w) as Hw. cbn zeta in Hr, Hw.
    rewrite Hc in Hr, Hw.
    destruct (RedisRepository.GetAll r params w) as [res w1]. cbn in *. by subst.
Qed.

Lemma cache_hit_is_served_without_store_witness :
  let r := main.cacheRepo 300 in
  let w := mkWorld [] [] (<["users:u1" := JUser ann]> ∅) [] [] 0 [] [] in
  bq_table w = [] ∧
  RedisRepository.GetByID r "u1" w
  = ((ann, None), after_redis [GET (RedisRepository.generateKey "u1")] w).
Proof.
  cbn zeta. split; [reflexivity|].
  refine (proj1 (cache_hit_is_served_without_store (main.cacheRepo 300) _ "u1" ann
                   (mkParams 1 10) []) _ _).
  - reflexivity.
  - vm_compute. reflexivity.
Defined.
